(** * All Occasion Cards: the Flask backend's query layer

    A shallow embedding of [backend/app.py]: the static [WebsiteData]
    store, the request handlers of the content and card routes, and the
    card filter of [get_cards], followed by the properties of the
    specification that concern them.

    Python values are embedded as follows.
    - [str] is [string]; [int] is [Z]; [float] is the kernel's binary64
      [float], whose comparisons are the IEEE ones Python uses.
    - a [dict] literal is an association list in insertion order.
    - [None] is [option]'s [None].
    - a handler either returns [(jsonify(response), status)] or raises an
      [APIError]: the [outcome] type.  A body is the dict handed to
      [jsonify]; the JSON text made of it, and the order of its keys,
      are [jsonify]'s and are not modelled. *)

From Stdlib Require Import List String Ascii ZArith NArith PArith Bool Lia.
From Stdlib Require Import Floats DecimalString.
Import ListNotations.

#[local] Set Warnings "-inexact-float,-register-all".
#[local] Open Scope string_scope.

(* ================================================================= *)
(** * Python built-ins used by the handlers *)

Module Py.

(** Truthiness of a [str]: the empty string is falsy. *)
Definition truthy (s : string) : bool :=
  match s with
  | EmptyString => false
  | String _ _ => true
  end.

(** [x in l] for a list of strings. *)
Definition mem (x : string) (l : list string) : bool :=
  existsb (String.eqb x) l.

(** [s.split(',')]: the pieces between commas, in order; the result
    always has at least one piece. *)
Fixpoint split_comma (s : string) : list string :=
  match s with
  | EmptyString => [EmptyString]
  | String c rest =>
      if Ascii.eqb c ","%char then EmptyString :: split_comma rest
      else match split_comma rest with
           | piece :: pieces => String c piece :: pieces
           | [] => [String c EmptyString]
           end
  end.

(** [str(n)] for an [int]. *)
Definition str_of_int (n : Z) : string :=
  NilZero.string_of_int (Z.to_int n).

(** ** [float(s)] for a [str]

    [None] stands for [ValueError].  The accepted syntax is the one of
    CPython on ASCII text: surrounding whitespace is stripped, single
    underscores may separate digits, then an optional sign followed by
    [inf], [infinity] or [nan] in any letter case, or by a decimal
    number with an optional exponent.  The value is the decimal number
    rounded to the nearest binary64, ties to even.

    On text with a character outside ASCII, CPython first replaces the
    decimal digits and the white space of other scripts by their ASCII
    counterparts; that table is not embedded, and such text is
    rejected here.  A result [Some x] is always CPython's; a result
    [None] is CPython's on ASCII text ([is_ascii] below). *)

(** The characters [float] strips: tab, line feed, vertical tab, form
    feed, carriage return and space. *)
Definition is_space (c : ascii) : bool :=
  let n := N_of_ascii c in
  ((9 <=? n) && (n <=? 13) || (n =? 32))%N.

Definition is_digit (c : ascii) : bool :=
  let n := N_of_ascii c in ((48 <=? n) && (n <=? 57))%N.

Definition digit_val (c : ascii) : Z := Z.of_N (N_of_ascii c) - 48.

Definition lower (c : ascii) : ascii :=
  let n := N_of_ascii c in
  if ((65 <=? n) && (n <=? 90))%N then ascii_of_N (n + 32) else c.

Fixpoint lstrip (l : list ascii) : list ascii :=
  match l with
  | c :: l' => if is_space c then lstrip l' else l
  | [] => []
  end.

Definition strip (l : list ascii) : list ascii :=
  rev (lstrip (rev (lstrip l))).

(** Underscores are dropped; one is legal only between two digits.
    [prev] is the character before the current position. *)
Fixpoint drop_underscores (prev : option ascii) (l : list ascii)
  : option (list ascii) :=
  let after_digit :=
    match prev with Some p => is_digit p | None => false end in
  match l with
  | [] => if match prev with
             | Some p => Ascii.eqb p "_"%char
             | None => false
             end
          then None else Some []
  | c :: l' =>
      if Ascii.eqb c "_"%char then
        if after_digit then drop_underscores (Some c) l' else None
      else
        if match prev with
           | Some p => Ascii.eqb p "_"%char && negb (is_digit c)
           | None => false
           end
        then None
        else option_map (cons c) (drop_underscores (Some c) l')
  end.

(** The longest prefix of digits and what follows it. *)
Fixpoint span_digits (l : list ascii) : list ascii * list ascii :=
  match l with
  | c :: l' =>
      if is_digit c then let (ds, r) := span_digits l' in (c :: ds, r)
      else ([], l)
  | [] => ([], [])
  end.

Definition nat_of_digits (ds : list ascii) : Z :=
  fold_left (fun acc c => 10 * acc + digit_val c)%Z ds 0%Z.

Definition take_sign (l : list ascii) : bool * list ascii :=
  match l with
  | c :: l' =>
      if Ascii.eqb c "-"%char then (true, l')
      else if Ascii.eqb c "+"%char then (false, l')
      else (false, l)
  | [] => (false, [])
  end.

(** [[eE][+-]?digits] at the end of the text, as a signed integer;
    the empty text is exponent zero. *)
Definition exponent (l : list ascii) : option Z :=
  match l with
  | [] => Some 0%Z
  | c :: l' =>
      if Ascii.eqb (lower c) "e"%char then
        let (neg, l'') := take_sign l' in
        match span_digits l'' with
        | ((_ :: _) as ds, []) =>
            Some (if neg then - nat_of_digits ds else nat_of_digits ds)%Z
        | _ => None
        end
      else None
  end.

(** [m * 10^e] rounded to binary64, with the sign [neg]. *)
Definition round_decimal (neg : bool) (m e : Z) : float :=
  match m with
  | Zpos p =>
      SF2Prim
        (if (0 <=? e)%Z
         then binary_normalize prec emax
                (if neg then - (m * 10 ^ e) else m * 10 ^ e)%Z 0%Z false
         else SFdiv prec emax
                (S754_finite neg p 0%Z)
                (S754_finite false (Z.to_pos (10 ^ (- e))) 0%Z))
  | _ => if neg then neg_zero else zero
  end.

Definition decimal (neg : bool) (l : list ascii) : option float :=
  let (ip, r) := span_digits l in
  let '(fp, r') :=
    match r with
    | c :: r0 =>
        if Ascii.eqb c "."%char then span_digits r0 else ([], r)
    | [] => ([], [])
    end in
  match (ip ++ fp)%list with
  | [] => None
  | ds =>
      match exponent r' with
      | Some e =>
          Some (round_decimal neg (nat_of_digits ds)
                  (e - Z.of_nat (List.length fp)))
      | None => None
      end
  end.

Definition float (s : string) : option float :=
  match drop_underscores None (strip (list_ascii_of_string s)) with
  | None => None
  | Some l =>
      let (neg, body) := take_sign l in
      let word := string_of_list_ascii (map lower body) in
      if (word =? "inf") || (word =? "infinity")
      then Some (if neg then neg_infinity else infinity)
      else if word =? "nan" then Some nan
      else decimal neg body
  end.

End Py.

(* ================================================================= *)
(** * The data: [WebsiteData] *)

(** A JSON-like Python value, as the content literals use them. *)
Inductive value :=
| VBool (b : bool)
| VInt (n : Z)
| VFloat (x : float)
| VStr (s : string)
| VList (items : list value)
| VDict (entries : list (string * value)).

(** [d[key]] read from a dict in insertion order; [None] when the key
    is missing. *)
Fixpoint dict_get {A : Type} (key : string) (d : list (string * A))
  : option A :=
  match d with
  | [] => None
  | (k, v) :: d' => if k =? key then Some v else dict_get key d'
  end.

(** One entry of [gallery["cards"]]. *)
Record Card := {
  card_id : Z;
  card_name : string;
  card_category : string;
  card_description : string;
  card_price : float;
  card_image_url : string;
  card_rotation : float;
  card_tags : list string
}.

(** The card as the dict literal it is in the source. *)
Definition value_of_card (c : Card) : value :=
  VDict [("id", VInt (card_id c));
         ("name", VStr (card_name c));
         ("category", VStr (card_category c));
         ("description", VStr (card_description c));
         ("price", VFloat (card_price c));
         ("image_url", VStr (card_image_url c));
         ("rotation", VFloat (card_rotation c));
         ("tags", VList (map VStr (card_tags c)))].

(** [self.gallery]: the catalog and the separately declared category
    list. *)
Record Gallery := {
  gallery_title : string;
  gallery_cards : list Card;
  gallery_categories : list string;
  gallery_animation : value
}.

Definition value_of_gallery (g : Gallery) : value :=
  VDict [("title", VStr (gallery_title g));
         ("cards", VList (map value_of_card (gallery_cards g)));
         ("categories", VList (map VStr (gallery_categories g)));
         ("animation", gallery_animation g)].

(** The attributes of a [WebsiteData] object.  An attribute holds a
    document or [None]. *)
Record WebsiteData := {
  header : option value;
  hero : option value;
  about : option value;
  gallery : option Gallery;
  contact : option value;
  footer : option value;
  metadata : option value;
  theme : option value
}.

Section Literals.

#[local] Open Scope float_scope.

Definition header_data : value :=
  VDict [("logo", VDict [("text", VStr "All Occasion Cards");
                         ("font_family", VStr "Dancing Script");
                         ("font_size", VStr "2rem")]);
         ("navigation",
          VList [VDict [("id", VStr "gallery"); ("text", VStr "Gallery");
                        ("href", VStr "#gallery")];
                 VDict [("id", VStr "about"); ("text", VStr "About");
                        ("href", VStr "#about")];
                 VDict [("id", VStr "contact"); ("text", VStr "Contact");
                        ("href", VStr "#contact")]])].

Definition hero_data : value :=
  VDict [("title", VStr "Handcrafted Cards for Every Occasion");
         ("subtitle", VStr "Bringing warmth and personality to your special moments with carefully crafted greeting cards");
         ("background", VDict [("type", VStr "wood");
                               ("opacity", VFloat 0.1);
                               ("color", VStr "#8B4513")]);
         ("animation", VDict [("duration", VFloat 0.8);
                              ("delay", VFloat 0.2)])].

Definition about_data : value :=
  VDict [("title", VStr "About Us");
         ("content",
          VList [VDict [("id", VStr "intro");
                        ("text", VStr "Welcome to our cozy corner of creativity! We're passionate about crafting beautiful, heartfelt greeting cards that bring warmth and joy to every occasion. Each card is carefully designed with love and attention to detail, making your special moments even more memorable.")];
                 VDict [("id", VStr "journey");
                        ("text", VStr "Our journey began with a simple idea: to create cards that feel like they were made by a friend, not a factory. We believe that the perfect card can speak volumes and create lasting connections between people. That's why we pour our hearts into every design, ensuring that each card carries its own unique personality and charm.")];
                 VDict [("id", VStr "quality");
                        ("text", VStr "Whether you're celebrating a birthday, expressing sympathy, or just want to brighten someone's day, we have a card that will help you convey your feelings perfectly. Each card is made with high-quality materials and designed to be treasured for years to come.")]]);
         ("animation", VDict [("duration", VFloat 0.8);
                              ("viewport_once", VBool true)])].

Definition cards_data : list Card :=
  [ {| card_id := 1;
       card_name := "Birthday Celebration";
       card_category := "birthday";
       card_description := "A vibrant birthday card with colorful balloons and confetti";
       card_price := 4.99;
       card_image_url := "/images/cards/birthday-1.jpg";
       card_rotation := 2.5;
       card_tags := ["birthday"; "celebration"; "colorful"] |};
    {| card_id := 2;
       card_name := "Sympathy & Comfort";
       card_category := "sympathy";
       card_description := "A gentle sympathy card with soft floral design";
       card_price := 5.99;
       card_image_url := "/images/cards/sympathy-1.jpg";
       card_rotation := -1.8;
       card_tags := ["sympathy"; "comfort"; "floral"] |};
    {| card_id := 3;
       card_name := "Wedding Congratulations";
       card_category := "wedding";
       card_description := "An elegant wedding card with gold accents";
       card_price := 6.99;
       card_image_url := "/images/cards/wedding-1.jpg";
       card_rotation := 3.2;
       card_tags := ["wedding"; "elegant"; "gold"] |};
    {| card_id := 4;
       card_name := "Thank You Note";
       card_category := "thank_you";
       card_description := "A heartfelt thank you card with handwritten style";
       card_price := 3.99;
       card_image_url := "/images/cards/thank-you-1.jpg";
       card_rotation := -2.1;
       card_tags := ["thank_you"; "handwritten"; "heartfelt"] |};
    {| card_id := 5;
       card_name := "Holiday Cheer";
       card_category := "holiday";
       card_description := "A festive holiday card with warm winter scenes";
       card_price := 4.99;
       card_image_url := "/images/cards/holiday-1.jpg";
       card_rotation := 1.5;
       card_tags := ["holiday"; "festive"; "winter"] |};
    {| card_id := 6;
       card_name := "Get Well Soon";
       card_category := "get_well";
       card_description := "A cheerful get well card with bright flowers";
       card_price := 4.49;
       card_image_url := "/images/cards/get-well-1.jpg";
       card_rotation := -0.8;
       card_tags := ["get_well"; "cheerful"; "flowers"] |} ].

Definition categories_data : list string :=
  ["birthday"; "sympathy"; "wedding"; "thank_you"; "holiday"; "get_well"].

Definition gallery_data : Gallery :=
  {| gallery_title := "Our Collection";
     gallery_cards := cards_data;
     gallery_categories := categories_data;
     gallery_animation := VDict [("duration", VFloat 0.5);
                                 ("delay_increment", VFloat 0.1)] |}.

Definition contact_data : value :=
  VDict [("title", VStr "Get in Touch");
         ("info",
          VList [VDict [("id", VStr "email"); ("type", VStr "email");
                        ("icon", VStr "FaEnvelope");
                        ("value", VStr "hello@alloccasioncards.com");
                        ("label", VStr "Email Address")];
                 VDict [("id", VStr "phone"); ("type", VStr "phone");
                        ("icon", VStr "FaPhone");
                        ("value", VStr "(555) 123-4567");
                        ("label", VStr "Phone Number")]]);
         ("social_media",
          VList [VDict [("id", VStr "instagram");
                        ("platform", VStr "Instagram");
                        ("url", VStr "https://instagram.com/alloccasioncards");
                        ("icon", VStr "FaInstagram")];
                 VDict [("id", VStr "facebook");
                        ("platform", VStr "Facebook");
                        ("url", VStr "https://facebook.com/alloccasioncards");
                        ("icon", VStr "FaFacebook")]]);
         ("business_hours",
          VDict [("monday", VStr "9:00 AM - 6:00 PM");
                 ("tuesday", VStr "9:00 AM - 6:00 PM");
                 ("wednesday", VStr "9:00 AM - 6:00 PM");
                 ("thursday", VStr "9:00 AM - 6:00 PM");
                 ("friday", VStr "9:00 AM - 6:00 PM");
                 ("saturday", VStr "10:00 AM - 4:00 PM");
                 ("sunday", VStr "Closed")])].

(** The footer reads the clock for the year of its copyright line. *)
Definition footer_data (year : Z) : value :=
  VDict [("copyright",
          VStr ("Â© " ++ Py.str_of_int year
                ++ " All Occasion Cards. All rights reserved."));
         ("links",
          VList [VDict [("text", VStr "Privacy Policy");
                        ("url", VStr "/privacy")];
                 VDict [("text", VStr "Terms of Service");
                        ("url", VStr "/terms")];
                 VDict [("text", VStr "Shipping Info");
                        ("url", VStr "/shipping")]])].

(** [last_updated] is [datetime.now().isoformat()] at start-up. *)
Definition metadata_data (last_updated : string) : value :=
  VDict [("site_name", VStr "All Occasion Cards");
         ("description", VStr "Handcrafted greeting cards for every special moment");
         ("keywords", VList [VStr "greeting cards"; VStr "handcrafted";
                             VStr "personalized"; VStr "occasions"]);
         ("author", VStr "All Occasion Cards Team");
         ("version", VStr "1.0.0");
         ("last_updated", VStr last_updated)].

Definition theme_data : value :=
  VDict [("colors", VDict [("primary", VStr "#4A5568");
                           ("secondary", VStr "#F7FAFC");
                           ("text", VStr "#2D3748");
                           ("background", VStr "#FFFFFF");
                           ("paper", VStr "#FEFEFE");
                           ("wood", VStr "#8B4513")]);
         ("fonts", VDict [("heading", VStr "Dancing Script");
                          ("body", VStr "Quicksand")]);
         ("border_radius", VDict [("small", VStr "4px");
                                  ("medium", VStr "8px");
                                  ("large", VStr "16px")]);
         ("shadows", VDict [("subtle", VStr "0 1px 3px rgba(0,0,0,0.1)");
                            ("medium", VStr "0 4px 6px rgba(0,0,0,0.1)")])].

End Literals.

(** [WebsiteData._initialize_data]: every attribute is set once.  The
    two clock readings of start-up are the year of the footer and the
    ISO timestamp of the metadata. *)
Definition initialize_data (year : Z) (last_updated : string)
  : WebsiteData :=
  {| header := Some header_data;
     hero := Some hero_data;
     about := Some about_data;
     gallery := Some gallery_data;
     contact := Some contact_data;
     footer := Some (footer_data year);
     metadata := Some (metadata_data last_updated);
     theme := Some theme_data |}.

(** [website_data = WebsiteData()], the process-wide instance. *)
Definition website_data (year : Z) (last_updated : string) : WebsiteData :=
  initialize_data year last_updated.

(* ================================================================= *)
(** * Errors and handler results *)

(** [class APIError(Exception)]. *)
Record APIError := {
  message : string;
  status_code : Z;
  error_code : string
}.

(** What a handler does: [return jsonify(response), status], or
    [raise APIError(...)]. *)
Inductive outcome (T : Type) : Type :=
| Return (body : T) (status : Z)
| Raise (error : APIError).

Arguments Return {T} body status.
Arguments Raise {T} error.

(** The body of the error envelope. *)
Record ErrorBody := {
  err_message : string;
  err_status_code : Z;
  err_error_code : string;
  err_timestamp : string
}.

(** [handle_api_error]: the envelope and the HTTP status sent for a
    raised [APIError]. *)
Definition handle_api_error (error : APIError) (now : string)
  : ErrorBody * Z :=
  ({| err_message := message error;
      err_status_code := status_code error;
      err_error_code := error_code error;
      err_timestamp := now |},
   status_code error).

(** The HTTP status the client sees. *)
Definition http_status {T : Type} (o : outcome T) (now : string) : Z :=
  match o with
  | Return _ status => status
  | Raise error => snd (handle_api_error error now)
  end.

(* ================================================================= *)
(** * The query string *)

(** [request.args]: the decoded pairs of the query string, in order. *)
Definition Args := list (string * string).

(** [request.args.get(key)]: the first value given for [key]. *)
Definition args_get (key : string) (args : Args) : option string :=
  dict_get key args.

(** [request.args.get(key, type=float)]: a value that [float] rejects
    gives the default, [None]. *)
Definition args_get_float (key : string) (args : Args) : option float :=
  match args_get key args with
  | Some s => Py.float s
  | None => None
  end.

(* ================================================================= *)
(** * Content routes *)

Record HealthResponse := {
  health_status : string;
  health_message : string;
  health_timestamp : string;
  health_version : value;
  health_debug_mode : bool
}.

(** [GET /api/health].  [debug] is [app.config['DEBUG']]. *)
Definition health_check (wd : WebsiteData) (debug : bool) (now : string)
  : outcome HealthResponse :=
  let failed :=
    Raise {| message := "Health check failed";
             status_code := 500;
             error_code := "HEALTH_CHECK_FAILED" |} in
  match metadata wd with
  | Some (VDict d) =>
      match dict_get "version" d with
      | Some version =>
          Return {| health_status := "healthy";
                    health_message := "All Occasion Cards API is running";
                    health_timestamp := now;
                    health_version := version;
                    health_debug_mode := debug |} 200
      | None => failed
      end
  | _ => failed
  end.

(** [GET /api/content]: the eight sections under their names.  The
    list is the dict handed to [jsonify], in the order of the literal;
    the order of the keys in the JSON text is [jsonify]'s own and is
    not modelled. *)
Definition get_all_content (wd : WebsiteData)
  : outcome (list (string * option value)) :=
  Return [("header", header wd);
          ("hero", hero wd);
          ("about", about wd);
          ("gallery", option_map value_of_gallery (gallery wd));
          ("contact", contact wd);
          ("footer", footer wd);
          ("metadata", metadata wd);
          ("theme", theme wd)] 200.

Definition valid_sections : list string :=
  ["header"; "hero"; "about"; "gallery"; "contact"; "footer";
   "metadata"; "theme"].

(** [getattr(website_data, name, None)] on the data attributes; the
    handler below calls it with a name of [valid_sections] only. *)
Definition getattr (wd : WebsiteData) (name : string) : option value :=
  if name =? "header" then header wd
  else if name =? "hero" then hero wd
  else if name =? "about" then about wd
  else if name =? "gallery" then option_map value_of_gallery (gallery wd)
  else if name =? "contact" then contact wd
  else if name =? "footer" then footer wd
  else if name =? "metadata" then metadata wd
  else if name =? "theme" then theme wd
  else None.

Record SectionResponse := {
  section_name : string;
  section_data : value;
  section_timestamp : string
}.

(** [GET /api/content/<section>]. *)
Definition get_section_content (wd : WebsiteData) (section : string)
    (now : string) : outcome SectionResponse :=
  if negb (Py.mem section valid_sections) then
    Raise {| message := "Invalid section: " ++ section;
             status_code := 400;
             error_code := "INVALID_SECTION" |}
  else
    match getattr wd section with
    | None =>
        Raise {| message := "Section not found: " ++ section;
                 status_code := 404;
                 error_code := "SECTION_NOT_FOUND" |}
    | Some data =>
        Return {| section_name := section;
                  section_data := data;
                  section_timestamp := now |} 200
    end.

Record ContactResponse := {
  contact_info : option value;
  contact_timestamp : string
}.

(** [GET /api/contact]. *)
Definition get_contact_info (wd : WebsiteData) (now : string)
  : outcome ContactResponse :=
  Return {| contact_info := contact wd; contact_timestamp := now |} 200.

(* ================================================================= *)
(** * Card routes *)

(** The four locals [get_cards] reads from the query string. *)
Record FilterSpec := {
  category : option string;
  min_price : option float;
  max_price : option float;
  tags : list string
}.

Definition parse_filters (args : Args) : FilterSpec :=
  {| category := args_get "category" args;
     min_price := args_get_float "min_price" args;
     max_price := args_get_float "max_price" args;
     tags := match args_get "tags" args with
             | Some s => if Py.truthy s then Py.split_comma s else []
             | None => []
             end |}.

(** [if category:] *)
Definition category_given (category : option string) : bool :=
  match category with
  | Some c => Py.truthy c
  | None => false
  end.

(** [if tags and tags[0]:] *)
Definition tags_given (tags : list string) : bool :=
  match tags with
  | first :: _ => Py.truthy first
  | [] => false
  end.

(** [any(tag in card["tags"] for tag in tags)] *)
Definition shares_tag (tags : list string) (card : Card) : bool :=
  existsb (fun tag => Py.mem tag (card_tags card)) tags.

Definition filter_category (category : option string) (cards : list Card)
  : list Card :=
  match category with
  | Some c =>
      if Py.truthy c
      then filter (fun card => card_category card =? c) cards
      else cards
  | None => cards
  end.

(** [card["price"] >= min_price] *)
Definition filter_min_price (min_price : option float) (cards : list Card)
  : list Card :=
  match min_price with
  | Some lo => filter (fun card => (lo <=? card_price card)%float) cards
  | None => cards
  end.

(** [card["price"] <= max_price] *)
Definition filter_max_price (max_price : option float) (cards : list Card)
  : list Card :=
  match max_price with
  | Some hi => filter (fun card => (card_price card <=? hi)%float) cards
  | None => cards
  end.

Definition filter_tags (tags : list string) (cards : list Card)
  : list Card :=
  if tags_given tags then filter (shares_tag tags) cards else cards.

(** The filter block of [get_cards]: four list comprehensions, each
    over the result of the one before. *)
Definition filter_cards (cards : list Card) (spec : FilterSpec)
  : list Card :=
  let cards := filter_category (category spec) cards in
  let cards := filter_min_price (min_price spec) cards in
  let cards := filter_max_price (max_price spec) cards in
  let cards := filter_tags (tags spec) cards in
  cards.

Record FiltersApplied := {
  applied_category : option string;
  applied_min_price : option float;
  applied_max_price : option float;
  applied_tags : option (list string)
}.

Record CardsResponse := {
  cards : list Card;
  total_count : Z;
  filters_applied : FiltersApplied;
  cards_timestamp : string
}.

Definition echo_filters (spec : FilterSpec) : FiltersApplied :=
  {| applied_category := category spec;
     applied_min_price := min_price spec;
     applied_max_price := max_price spec;
     applied_tags := if tags_given (tags spec)
                     then Some (tags spec) else None |}.

(** [GET /api/cards].  With no gallery, [website_data.gallery["cards"]]
    raises and [except Exception] turns it into the 500 error. *)
Definition get_cards (wd : WebsiteData) (args : Args) (now : string)
  : outcome CardsResponse :=
  let spec := parse_filters args in
  match gallery wd with
  | Some g =>
      let cards := filter_cards (gallery_cards g) spec in
      Return {| cards := cards;
                total_count := Z.of_nat (List.length cards);
                filters_applied := echo_filters spec;
                cards_timestamp := now |} 200
  | None =>
      Raise {| message := "Failed to retrieve cards";
               status_code := 500;
               error_code := "CARDS_RETRIEVAL_FAILED" |}
  end.

Record CardResponse := {
  card : Card;
  card_timestamp : string
}.

(** [GET /api/cards/<int:card_id>]:
    [next((c for c in cards if c["id"] == card_id), None)]. *)
Definition get_card_by_id (wd : WebsiteData) (id : Z) (now : string)
  : outcome CardResponse :=
  match gallery wd with
  | Some g =>
      match find (fun c => (card_id c =? id)%Z) (gallery_cards g) with
      | None =>
          Raise {| message := "Card not found with ID: "
                              ++ Py.str_of_int id;
                   status_code := 404;
                   error_code := "CARD_NOT_FOUND" |}
      | Some c =>
          Return {| card := c; card_timestamp := now |} 200
      end
  | None =>
      Raise {| message := "Failed to retrieve card";
               status_code := 500;
               error_code := "CARD_RETRIEVAL_FAILED" |}
  end.

Record CategoriesResponse := {
  categories : list string;
  categories_total_count : Z;
  categories_timestamp : string
}.

(** [GET /api/categories]. *)
Definition get_categories (wd : WebsiteData) (now : string)
  : outcome CategoriesResponse :=
  match gallery wd with
  | Some g =>
      Return {| categories := gallery_categories g;
                categories_total_count :=
                  Z.of_nat (List.length (gallery_categories g));
                categories_timestamp := now |} 200
  | None =>
      Raise {| message := "Failed to retrieve categories";
               status_code := 500;
               error_code := "CATEGORIES_RETRIEVAL_FAILED" |}
  end.

(* ================================================================= *)
(** * The serving loop *)

Inductive request :=
| GetHealth
| GetAllContent
| GetSection (section : string)
| GetCards (args : Args)
| GetCard (id : Z)
| GetCategories
| GetContact.

Inductive response :=
| Health (o : outcome HealthResponse)
| AllContent (o : outcome (list (string * option value)))
| Section (o : outcome SectionResponse)
| Cards (o : outcome CardsResponse)
| OneCard (o : outcome CardResponse)
| Categories (o : outcome CategoriesResponse)
| Contact (o : outcome ContactResponse).

(** One request against the process-wide store.  No handler assigns to
    [website_data] or to a value inside it ([get_cards] filters a copy
    of the card list), so the store after the request is the store
    before it.  The two debug routes, which read the store and the log
    file and write neither, are left out. *)
Definition serve (debug : bool) (wd : WebsiteData) (req : request)
    (now : string) : WebsiteData * response :=
  (wd,
   match req with
   | GetHealth => Health (health_check wd debug now)
   | GetAllContent => AllContent (get_all_content wd)
   | GetSection section => Section (get_section_content wd section now)
   | GetCards args => Cards (get_cards wd args now)
   | GetCard id => OneCard (get_card_by_id wd id now)
   | GetCategories => Categories (get_categories wd now)
   | GetContact => Contact (get_contact_info wd now)
   end).

(** A sequence of requests, each with the clock reading of its
    response. *)
Fixpoint run (debug : bool) (wd : WebsiteData)
    (reqs : list (request * string)) : WebsiteData * list response :=
  match reqs with
  | [] => (wd, [])
  | (req, now) :: reqs' =>
      let (wd', resp) := serve debug wd req now in
      let (wd'', resps) := run debug wd' reqs' in
      (wd'', resp :: resps)
  end.

(* ================================================================= *)
(** * The filter as the specification words it *)

(** The conjunction of the four predicates; a predicate whose field is
    absent (for [tags]: absent or empty) is skipped. *)
Definition spec_matches (spec : FilterSpec) (c : Card) : bool :=
  match category spec with
  | Some wanted => card_category c =? wanted
  | None => true
  end
  && match min_price spec with
     | Some lo => (lo <=? card_price c)%float
     | None => true
     end
  && match max_price spec with
     | Some hi => (card_price c <=? hi)%float
     | None => true
     end
  && match tags spec with
     | [] => true
     | wanted => existsb (fun t => Py.mem t wanted) (card_tags c)
     end.

(** The stable list filter of that conjunction. *)
Definition spec_filter (cards : list Card) (spec : FilterSpec)
  : list Card :=
  filter (spec_matches spec) cards.

(** The fields the code acts on: an empty [category] string and a tag
    list whose first element is the empty string count as not given. *)
Definition effective (spec : FilterSpec) : FilterSpec :=
  {| category := if category_given (category spec)
                 then category spec else None;
     min_price := min_price spec;
     max_price := max_price spec;
     tags := if tags_given (tags spec) then tags spec else [] |}.

(** The query string without the parameter [key]. *)
Definition args_remove (key : string) (args : Args) : Args :=
  filter (fun kv => negb (fst kv =? key)) args.

(** Every card's category is in the declared category list. *)
Definition categories_declared (g : Gallery) : Prop :=
  forall c, In c (gallery_cards g) ->
            In (card_category c) (gallery_categories g).

(** The conjunction the four comprehensions compute, with the code's
    own tests for a given field. *)
Definition passes (spec : FilterSpec) (c : Card) : bool :=
  (if category_given (category spec)
   then match category spec with
        | Some wanted => card_category c =? wanted
        | None => true
        end
   else true)
  && match min_price spec with
     | Some lo => (lo <=? card_price c)%float
     | None => true
     end
  && match max_price spec with
     | Some hi => (card_price c <=? hi)%float
     | None => true
     end
  && (if tags_given (tags spec) then shares_tag (tags spec) c else true).

(** [lo <= price <= hi], both ends included. *)
Definition in_range (lo hi : float) (c : Card) : bool :=
  ((lo <=? card_price c) && (card_price c <=? hi))%float.

(** The error of a missing card. *)
Definition card_not_found (id : Z) : APIError :=
  {| message := "Card not found with ID: " ++ Py.str_of_int id;
     status_code := 404;
     error_code := "CARD_NOT_FOUND" |}.

(** The errors of the section route. *)
Definition invalid_section (section : string) : APIError :=
  {| message := "Invalid section: " ++ section;
     status_code := 400;
     error_code := "INVALID_SECTION" |}.

Definition section_not_found (section : string) : APIError :=
  {| message := "Section not found: " ++ section;
     status_code := 404;
     error_code := "SECTION_NOT_FOUND" |}.

(* ================================================================= *)
(** * Configuration and the debug routes *)

(** [s.lower()] on ASCII letters; other bytes are kept.  No character
    outside ASCII has a lower-case form among the letters of
    ["true"], so the comparison below is not affected. *)
Definition str_lower (s : string) : string :=
  string_of_list_ascii (map Py.lower (list_ascii_of_string s)).

(** [app.config['DEBUG']]:
    [os.environ.get('FLASK_DEBUG', 'True').lower() == 'true'].
    [flask_debug] is the environment variable, [None] when unset. *)
Definition debug_config (flask_debug : option string) : bool :=
  str_lower (match flask_debug with
             | Some v => v
             | None => "True"
             end) =? "true".

(** The error both debug routes raise when debug mode is off. *)
Definition debug_disabled : APIError :=
  {| message := "Debug endpoint not available in production";
     status_code := 403;
     error_code := "DEBUG_DISABLED" |}.

(** [attr.startswith('_')] *)
Definition starts_with_underscore (attr : string) : bool :=
  match attr with
  | String c _ => Ascii.eqb c "_"%char
  | EmptyString => false
  end.

(** [callable(x)] for the value of a data attribute: a dict, a list, a
    string, a number or [None] is not callable. *)
Definition callable (x : option value) : bool := false.

(** [{attr: getattr(website_data, attr) for attr in dir(website_data)
     if not attr.startswith('_')
     and not callable(getattr(website_data, attr))}].
    [names] is what [dir(website_data)] lists: the names of the data
    attributes and those the class and [object] provide. *)
Definition data_attributes (wd : WebsiteData) (names : list string)
  : list (string * option value) :=
  map (fun attr => (attr, getattr wd attr))
      (filter (fun attr =>
                 negb (starts_with_underscore attr)
                 && negb (callable (getattr wd attr)))
              names).

Record DebugDataResponse := {
  data_structure : list (string * option value);
  app_config_debug : bool;
  app_config_json_sort_keys : bool;
  debug_data_timestamp : string
}.

(** [GET /api/debug/data].  [JSON_SORT_KEYS] is set to [False] at
    start-up. *)
Definition debug_data_structure (wd : WebsiteData) (debug : bool)
    (names : list string) (now : string) : outcome DebugDataResponse :=
  if negb debug then Raise debug_disabled
  else
    Return {| data_structure := data_attributes wd names;
              app_config_debug := debug;
              app_config_json_sort_keys := false;
              debug_data_timestamp := now |} 200.

(** What [open('app.log', 'r')] and [readlines()] give: the lines of
    the file, [FileNotFoundError], or another exception. *)
Inductive log_read :=
| LogLines (lines : list string)
| LogNotFound
| LogUnreadable.

Record DebugLogsResponse := {
  recent_entries : list string;
  total_entries : Z;
  debug_logs_timestamp : string
}.

(** [lines[-50:] if len(lines) > 50 else lines] *)
Definition last_50 (lines : list string) : list string :=
  if (50 <? List.length lines)%nat
  then skipn (List.length lines - 50) lines
  else lines.

(** [GET /api/debug/logs]. *)
Definition debug_logs (debug : bool) (log : log_read) (now : string)
  : outcome DebugLogsResponse :=
  if negb debug then Raise debug_disabled
  else
    let answer (log_entries : list string) :=
      Return {| recent_entries := log_entries;
                total_entries := Z.of_nat (List.length log_entries);
                debug_logs_timestamp := now |} 200 in
    match log with
    | LogLines lines => answer (last_50 lines)
    | LogNotFound => answer ["No log file found"]
    | LogUnreadable =>
        Raise {| message := "Failed to retrieve debug logs";
                 status_code := 500;
                 error_code := "DEBUG_LOGS_RETRIEVAL_FAILED" |}
    end.

(** The requested tags that can match: the non-empty ones. *)
Definition proper_tags (wanted : list string) : list string :=
  filter Py.truthy wanted.

(** The status and code of every error the seven modelled routes
    raise. *)
Definition error_table : list (Z * string) :=
  [(400%Z, "INVALID_SECTION");
   (404%Z, "SECTION_NOT_FOUND");
   (404%Z, "CARD_NOT_FOUND");
   (500%Z, "HEALTH_CHECK_FAILED");
   (500%Z, "CARDS_RETRIEVAL_FAILED");
   (500%Z, "CARD_RETRIEVAL_FAILED");
   (500%Z, "CATEGORIES_RETRIEVAL_FAILED")].

(** What [dir(website_data)] lists, as far as the route depends on it:
    the eight data attributes, and beside them only names that start
    with an underscore (the two methods of the class and the names
    [object] provides). *)
Definition lists_the_attributes (names : list string) : Prop :=
  (forall name, In name valid_sections -> In name names)
  /\ (forall name, In name names ->
        In name valid_sections \/ starts_with_underscore name = true).

(** Text of ASCII characters only. *)
Definition is_ascii (s : string) : bool :=
  forallb (fun c => (N_of_ascii c <? 128)%N) (list_ascii_of_string s).

(** The values sent for [min_price] and [max_price], if any, are
    ASCII text: the requests on which the price bounds read here are
    the ones the route reads. *)
Definition ascii_prices (args : Args) : bool :=
  forallb (fun key => match args_get key args with
                      | Some v => is_ascii v
                      | None => true
                      end)
          ["min_price"; "max_price"].

(** The error a response carries, if it is one. *)
Definition raised {T : Type} (o : outcome T) : option APIError :=
  match o with
  | Return _ _ => None
  | Raise e => Some e
  end.

Definition response_error (r : response) : option APIError :=
  match r with
  | Health o => raised o
  | AllContent o => raised o
  | Section o => raised o
  | Cards o => raised o
  | OneCard o => raised o
  | Categories o => raised o
  | Contact o => raised o
  end.

(** The HTTP status of a response. *)
Definition response_status (r : response) (now : string) : Z :=
  match r with
  | Health o => http_status o now
  | AllContent o => http_status o now
  | Section o => http_status o now
  | Cards o => http_status o now
  | OneCard o => http_status o now
  | Categories o => http_status o now
  | Contact o => http_status o now
  end.

(* ================================================================= *)
(** * The built-ins on examples *)

Section BuiltinExamples.

#[local] Open Scope float_scope.

Example split_comma_two : Py.split_comma "birthday,celebration"
                          = ["birthday"; "celebration"].
Proof. reflexivity. Qed.

Example split_comma_leading : Py.split_comma ",birthday"
                              = [""; "birthday"].
Proof. reflexivity. Qed.

Example split_comma_trailing : Py.split_comma "a," = ["a"; ""].
Proof. reflexivity. Qed.

Example str_of_int_999 : Py.str_of_int 999 = "999".
Proof. reflexivity. Qed.

(** The parsed text and the literal of the source are the same
    binary64 value. *)
Example float_4_99 : Py.float "4.99" = Some 4.99.
Proof. vm_compute. reflexivity. Qed.

Example float_5_0 : Py.float "5.0" = Some 5.
Proof. vm_compute. reflexivity. Qed.

Example float_exponent : Py.float " 1_0.5e-1 " = Some 1.05.
Proof. vm_compute. reflexivity. Qed.

Example float_tie_to_even : Py.float "9007199254740993"
                            = Some 9007199254740992.
Proof. vm_compute. reflexivity. Qed.

Example float_overflow : Py.float "1e309" = Some infinity.
Proof. vm_compute. reflexivity. Qed.

Example float_nan : Py.float "-NaN" = Some nan.
Proof. vm_compute. reflexivity. Qed.

Example float_rejects :
  map Py.float ["abc"; ""; "1e"; "."; "0x10"; "1__0"; "_1"; "1 2"; "5,0"]
  = [None; None; None; None; None; None; None; None; None].
Proof. vm_compute. reflexivity. Qed.

End BuiltinExamples.

(* ================================================================= *)
(** * Lists and strings *)

Section ListFacts.

Context {A : Type}.

Lemma filter_filter (p q : A -> bool) (l : list A) :
  filter p (filter q l) = filter (fun x => q x && p x) l.
Proof.
  induction l as [|x l IH]; simpl; [reflexivity|].
  destruct (q x); simpl; [destruct (p x)|]; now rewrite IH.
Qed.

Lemma filter_true (l : list A) : filter (fun _ => true) l = l.
Proof. induction l as [|x l IH]; simpl; congruence. Qed.

Lemma filter_idempotent (p : A -> bool) (l : list A) :
  filter p (filter p l) = filter p l.
Proof.
  rewrite filter_filter. apply filter_ext. intro x. now destruct (p x).
Qed.

Lemma filter_none (p : A -> bool) (l : list A) :
  (forall x, In x l -> p x = false) -> filter p l = [].
Proof.
  induction l as [|x l IH]; simpl; intro H; [reflexivity|].
  rewrite (H x (or_introl eq_refl)). apply IH. intros y Hy. apply H. now right.
Qed.

End ListFacts.

Lemma mem_In (x : string) (l : list string) :
  Py.mem x l = true <-> In x l.
Proof.
  unfold Py.mem. rewrite existsb_exists. split.
  - intros [y [Hy Heq]]. apply String.eqb_eq in Heq. now subst.
  - intro H. exists x. split; [assumption | apply String.eqb_refl].
Qed.

(** The code's test and the specification's test for a shared tag. *)
Lemma shares_tag_iff (wanted : list string) (c : Card) :
  shares_tag wanted c = true <->
  exists t, In t (card_tags c) /\ In t wanted.
Proof.
  unfold shares_tag. rewrite existsb_exists. split.
  - intros [t [Ht Hm]]. exists t. split; [now apply mem_In | assumption].
  - intros [t [Hc Hw]]. exists t. split; [assumption | now apply mem_In].
Qed.

Lemma shares_tag_sym (wanted : list string) (c : Card) :
  shares_tag wanted c = existsb (fun t => Py.mem t wanted) (card_tags c).
Proof.
  apply eq_true_iff_eq. rewrite shares_tag_iff, existsb_exists.
  split; intros [t [H1 H2]]; exists t.
  - split; [assumption | now apply mem_In].
  - split; [assumption | now apply mem_In].
Qed.

(* ================================================================= *)
(** * The filter block as one filter *)

Lemma filter_category_as_filter category cards :
  filter_category category cards =
  filter (fun c => if category_given category
                   then match category with
                        | Some wanted => card_category c =? wanted
                        | None => true
                        end
                   else true) cards.
Proof.
  unfold filter_category, category_given.
  destruct category as [w|]; [destruct (Py.truthy w)|];
    now rewrite ?filter_true.
Qed.

Lemma filter_min_price_as_filter min_price cards :
  filter_min_price min_price cards =
  filter (fun c => match min_price with
                   | Some lo => (lo <=? card_price c)%float
                   | None => true
                   end) cards.
Proof. destruct min_price; simpl; now rewrite ?filter_true. Qed.

Lemma filter_max_price_as_filter max_price cards :
  filter_max_price max_price cards =
  filter (fun c => match max_price with
                   | Some hi => (card_price c <=? hi)%float
                   | None => true
                   end) cards.
Proof. destruct max_price; simpl; now rewrite ?filter_true. Qed.

Lemma filter_tags_as_filter tags cards :
  filter_tags tags cards =
  filter (fun c => if tags_given tags then shares_tag tags c else true)
         cards.
Proof.
  unfold filter_tags. destruct (tags_given tags); now rewrite ?filter_true.
Qed.

Lemma filter_cards_passes cards spec :
  filter_cards cards spec = filter (passes spec) cards.
Proof.
  unfold filter_cards.
  rewrite filter_tags_as_filter, filter_max_price_as_filter,
    filter_min_price_as_filter, filter_category_as_filter.
  rewrite !filter_filter. apply filter_ext. intro c.
  unfold passes. now rewrite !andb_assoc.
Qed.

Lemma passes_effective spec c :
  passes spec c = spec_matches (effective spec) c.
Proof.
  unfold passes, spec_matches, effective; simpl.
  assert (Hc : (if category_given (category spec)
                then match category spec with
                     | Some wanted => card_category c =? wanted
                     | None => true
                     end
                else true) =
               match (if category_given (category spec)
                      then category spec else None) with
               | Some wanted => card_category c =? wanted
               | None => true
               end)
    by (destruct (category_given (category spec)); reflexivity).
  assert (Ht : (if tags_given (tags spec)
                then shares_tag (tags spec) c else true) =
               match (if tags_given (tags spec) then tags spec else []) with
               | [] => true
               | wanted =>
                   existsb (fun t => Py.mem t wanted) (card_tags c)
               end).
  { destruct (tags_given (tags spec)) eqn:E; [|reflexivity].
    destruct (tags spec) as [|t ts]; [discriminate|].
    apply shares_tag_sym. }
  now rewrite Hc, Ht.
Qed.

Lemma get_cards_returns wd g args now :
  gallery wd = Some g ->
  get_cards wd args now =
  Return {| cards := filter_cards (gallery_cards g) (parse_filters args);
            total_count :=
              Z.of_nat (List.length
                (filter_cards (gallery_cards g) (parse_filters args)));
            filters_applied := echo_filters (parse_filters args);
            cards_timestamp := now |} 200.
Proof. intro H. unfold get_cards. now rewrite H. Qed.

(* ================================================================= *)
(** * The order of binary64 values *)

(** [SFcompare] orders finite values by sign, then exponent, then
    mantissa; chaining two [<=] never meets a [<] in the other
    direction, whatever the values, and a NaN compares with nothing. *)
Lemma SFleb_SFleb_SFltb (a b c : spec_float) :
  SFleb a b = true -> SFleb b c = true -> SFltb c a = false.
Proof.
  unfold SFleb, SFltb.
  destruct a as [sa|sa| |sa ma ea], b as [sb|sb| |sb mb eb],
           c as [sc|sc| |sc mc ec]; simpl;
    try destruct sa; try destruct sb; try destruct sc; simpl;
    try discriminate; try reflexivity;
    change (PosDef.Pos.compare_cont Eq) with Pos.compare;
    repeat match goal with
           | |- context [Z.compare ?x ?y] =>
               destruct (Z.compare_spec x y); simpl
           | |- context [Pos.compare ?x ?y] =>
               destruct (Pos.compare_spec x y); simpl
           end;
    try discriminate; try reflexivity; intros _ _; exfalso; subst; lia.
Qed.

(** The same on Python floats: [lo <= x] and [x <= hi] exclude
    [hi < lo]. *)
Lemma float_bounds_ordered (lo x hi : float) :
  (lo <=? x)%float = true -> (x <=? hi)%float = true ->
  (hi <? lo)%float = false.
Proof.
  rewrite !leb_spec, ltb_spec. apply SFleb_SFleb_SFltb.
Qed.

(* ================================================================= *)
(** * The card filter *)

(** The scenario of the specification on the catalog. *)
Example filter_by_category_birthday :
  map card_id
    (filter_cards cards_data
       {| category := Some "birthday"; min_price := None;
          max_price := None; tags := [] |}) = [1%Z].
Proof. reflexivity. Qed.

Example filter_by_min_price_5 :
  map card_id
    (filter_cards cards_data
       {| category := None; min_price := Py.float "5.0";
          max_price := None; tags := [] |}) = [2%Z; 3%Z].
Proof. vm_compute. reflexivity. Qed.

Example filter_by_tags_birthday_celebration :
  map card_id
    (filter_cards cards_data
       {| category := None; min_price := None; max_price := None;
          tags := Py.split_comma "birthday,celebration" |}) = [1%Z].
Proof. reflexivity. Qed.

(** C2, as stated, fails: for the tag list of [tags=,birthday] the code
    keeps all six cards, the conjunction of the present predicates
    keeps card 1 only. *)
Lemma filter_cards_spec_filter_counterexample :
  let spec := {| category := None; min_price := None; max_price := None;
                 tags := Py.split_comma ",birthday" |} in
  tags spec = [""; "birthday"]
  /\ map card_id (filter_cards cards_data spec)
     = [1%Z; 2%Z; 3%Z; 4%Z; 5%Z; 6%Z]
  /\ map card_id (spec_filter cards_data spec) = [1%Z]
  /\ filter_cards cards_data spec <> spec_filter cards_data spec.
Proof.
  cbv zeta. repeat split; try reflexivity.
  intro H. apply (f_equal (map card_id)) in H. vm_compute in H.
  discriminate H.
Qed.

(** C2 (amended).  For every card collection and every filter, the
    four comprehensions run in the order category, minimum price,
    maximum price, tags, and their result is the stable list filter of
    the conjunction of the predicates the code takes as given: a
    category that is absent or the empty string is skipped, an absent
    bound is skipped, and a tag list that is empty or starts with the
    empty string is skipped.  For a filter with no empty category and no
    empty first tag this is the conjunction of the present predicates. *)
Theorem filter_cards_stable_conjunction :
  forall (cards : list Card) (spec : FilterSpec),
    filter_cards cards spec
    = filter_tags (tags spec)
        (filter_max_price (max_price spec)
           (filter_min_price (min_price spec)
              (filter_category (category spec) cards)))
    /\ filter_cards cards spec = spec_filter cards (effective spec)
    /\ (category spec <> Some "" ->
        (forall rest, tags spec <> "" :: rest) ->
        filter_cards cards spec = spec_filter cards spec).
Proof.
  intros cards spec. split; [reflexivity|].
  assert (E : filter_cards cards spec = spec_filter cards (effective spec)).
  { rewrite filter_cards_passes. unfold spec_filter.
    apply filter_ext. intro c. apply passes_effective. }
  split; [exact E|].
  intros Hc Ht. rewrite E. f_equal.
  destruct spec as [cat lo hi ts]; unfold effective; simpl in *.
  f_equal.
  - destruct cat as [[|a s]|]; simpl; [congruence | reflexivity..].
  - destruct ts as [|[|a s] ts]; simpl; [reflexivity| |reflexivity].
    now destruct (Ht ts).
Qed.

Lemma filter_cards_stable_conjunction_witness :
  let spec := {| category := Some "birthday"; min_price := None;
                 max_price := None; tags := ["birthday"; "colorful"] |} in
  filter_cards cards_data spec = spec_filter cards_data spec.
Proof.
  cbv zeta.
  apply (proj2 (proj2 (filter_cards_stable_conjunction cards_data
    {| category := Some "birthday"; min_price := None;
       max_price := None; tags := ["birthday"; "colorful"] |}))); simpl.
  - discriminate.
  - discriminate.
Defined.

(** C4, as stated, fails: [",birthday"] gives the non-empty tag list
    [[""; "birthday"]], for which the tag filter keeps every card, among
    them card 2, none of whose tags is in the list. *)
Lemma filter_tags_nonempty_list_counterexample :
  Py.split_comma ",birthday" = [""; "birthday"]
  /\ [""; "birthday"] <> []
  /\ map card_id (filter_tags [""; "birthday"] cards_data)
     = [1%Z; 2%Z; 3%Z; 4%Z; 5%Z; 6%Z]
  /\ ~ (forall c,
          In c (filter_tags [""; "birthday"] cards_data) <->
          In c cards_data
          /\ exists t, In t (card_tags c) /\ In t [""; "birthday"]).
Proof.
  split; [reflexivity|]. split; [discriminate|]. split; [reflexivity|].
  intro H.
  assert (Hall : forallb (shares_tag [""; "birthday"]) cards_data = true).
  { apply forallb_forall. intros c Hc. apply shares_tag_iff.
    now apply (H c). }
  vm_compute in Hall. discriminate Hall.
Qed.

(** C4 (amended).  When the requested tag list starts with a non-empty
    string, a card is kept by the tag filter if and only if at least one
    of its tags equals, as a string, some element of the requested
    list; a list that is empty or starts with the empty string leaves
    the cards as they are. *)
Theorem filter_tags_nonempty_intersection :
  forall (wanted : list string) (cards : list Card),
    (tags_given wanted = true ->
     forall c, In c (filter_tags wanted cards) <->
               In c cards
               /\ exists t, In t (card_tags c) /\ In t wanted)
    /\ (tags_given wanted = false -> filter_tags wanted cards = cards).
Proof.
  intros wanted cards. unfold filter_tags. split; intro H; rewrite H.
  - intro c. rewrite filter_In, shares_tag_iff. reflexivity.
  - reflexivity.
Qed.

Lemma filter_tags_nonempty_intersection_witness :
  (forall c, In c (filter_tags ["birthday"; "celebration"] cards_data) <->
             In c cards_data
             /\ exists t, In t (card_tags c)
                          /\ In t ["birthday"; "celebration"])
  /\ filter_tags [""; "birthday"] cards_data = cards_data.
Proof.
  split.
  - apply (proj1 (filter_tags_nonempty_intersection
                    ["birthday"; "celebration"] cards_data)).
    reflexivity.
  - apply (proj2 (filter_tags_nonempty_intersection
                    [""; "birthday"] cards_data)).
    reflexivity.
Defined.

(** C5.  Filtering is idempotent: filtering the result of a filter
    again with the same filter gives the same sequence of cards. *)
Theorem filter_cards_idempotent :
  forall (cards : list Card) (spec : FilterSpec),
    filter_cards (filter_cards cards spec) spec = filter_cards cards spec.
Proof.
  intros cards spec. rewrite !filter_cards_passes. apply filter_idempotent.
Qed.

(* ================================================================= *)
(** * Price bounds *)

Lemma filter_cards_price_range cards lo hi :
  filter_cards cards {| category := None; min_price := Some lo;
                        max_price := Some hi; tags := [] |}
  = filter (in_range lo hi) cards.
Proof.
  unfold filter_cards; simpl. unfold filter_tags; simpl.
  apply filter_filter.
Qed.

Lemma in_range_empty lo hi c :
  (hi <? lo)%float = true -> in_range lo hi c = false.
Proof.
  intro H. unfold in_range.
  destruct (lo <=? card_price c)%float eqn:E1; [|reflexivity].
  destruct (card_price c <=? hi)%float eqn:E2; [|reflexivity].
  rewrite (float_bounds_ordered _ _ _ E1 E2) in H. discriminate H.
Qed.

(** C3.  With both price bounds present (and no other filter), the
    filter returns exactly the cards with [min_price <= price <=
    max_price], both bounds included, in catalog order.  When no card
    lies within the bounds, in particular when [max_price < min_price],
    the result is the empty list, and [/api/cards] answers 200 with
    that empty list and [total_count = 0]: no error is raised.  With a
    category or tags given as well, the bounds keep, of the cards those
    select, exactly the ones within the bounds. *)
Theorem price_bounds_inclusive :
  forall (catalog : list Card) (lo hi : float),
    let spec := {| category := None; min_price := Some lo;
                   max_price := Some hi; tags := [] |} in
    filter_cards catalog spec = filter (in_range lo hi) catalog
    /\ (forall c, In c (filter_cards catalog spec) <->
                  In c catalog
                  /\ (lo <=? card_price c)%float = true
                  /\ (card_price c <=? hi)%float = true)
    /\ ((forall c, In c catalog -> in_range lo hi c = false) ->
        filter_cards catalog spec = [])
    /\ ((hi <? lo)%float = true -> filter_cards catalog spec = [])
    /\ (forall wd g args now,
          gallery wd = Some g ->
          gallery_cards g = catalog ->
          parse_filters args = spec ->
          exists r,
            get_cards wd args now = Return r 200
            /\ cards r = filter (in_range lo hi) catalog
            /\ total_count r = Z.of_nat (List.length (cards r))
            /\ (cards r = [] -> total_count r = 0%Z)
            /\ ((hi <? lo)%float = true ->
                cards r = [] /\ total_count r = 0%Z))
    /\ (forall wanted_category wanted_tags,
          filter_cards catalog
            {| category := wanted_category; min_price := Some lo;
               max_price := Some hi; tags := wanted_tags |}
          = filter (in_range lo hi)
              (filter_cards catalog
                 {| category := wanted_category; min_price := None;
                    max_price := None; tags := wanted_tags |})).
Proof.
  intros catalog lo hi spec. subst spec.
  rewrite filter_cards_price_range.
  split; [reflexivity|]. split; [|split; [|split; [|split]]].
  - intro c. rewrite filter_In. unfold in_range.
    rewrite andb_true_iff. reflexivity.
  - apply filter_none.
  - intro H. apply filter_none. intros c _. now apply in_range_empty.
  - intros wd g args now Hg Hc Hs.
    rewrite (get_cards_returns wd g args now Hg), Hs, Hc.
    rewrite filter_cards_price_range.
    eexists. split; [reflexivity|]. simpl.
    split; [reflexivity|]. split; [reflexivity|].
    split; [intros ->; reflexivity|].
    intro H.
    assert (E : filter (in_range lo hi) catalog = [])
      by (apply filter_none; intros c _; now apply in_range_empty).
    rewrite E. split; reflexivity.
  - intros wanted_category wanted_tags.
    rewrite !filter_cards_passes, filter_filter.
    apply filter_ext. intro c. unfold passes, in_range; simpl.
    destruct (if category_given wanted_category
              then match wanted_category with
                   | Some wanted => card_category c =? wanted
                   | None => true
                   end
              else true),
             (lo <=? card_price c)%float, (card_price c <=? hi)%float,
             (if tags_given wanted_tags
              then shares_tag wanted_tags c else true);
      reflexivity.
Qed.

Lemma price_bounds_inclusive_witness :
  filter_cards cards_data
    {| category := None; min_price := Some 10%float;
       max_price := Some 20%float; tags := [] |} = []
  /\ filter_cards cards_data
       {| category := None; min_price := Some 6%float;
          max_price := Some 4%float; tags := [] |} = []
  /\ exists r,
       get_cards (website_data 2024 "2024-01-01T00:00:00")
         [("min_price", "4.0"); ("max_price", "6.0")]
         "2024-06-01T12:00:00" = Return r 200
       /\ cards r = filter (in_range 4 6) cards_data
       /\ total_count r = Z.of_nat (List.length (cards r))
       /\ (cards r = [] -> total_count r = 0%Z)
       /\ ((6 <? 4)%float = true ->
           cards r = [] /\ total_count r = 0%Z).
Proof.
  split; [|split].
  - apply (proj1 (proj2 (proj2
             (price_bounds_inclusive cards_data 10 20)))).
    intros c Hc. simpl in Hc.
    repeat (destruct Hc as [<-|Hc]; [reflexivity|]). destruct Hc.
  - apply (proj1 (proj2 (proj2 (proj2
             (price_bounds_inclusive cards_data 6 4))))).
    reflexivity.
  - apply (proj1 (proj2 (proj2 (proj2 (proj2
             (price_bounds_inclusive cards_data 4 6)))))
             (website_data 2024 "2024-01-01T00:00:00") gallery_data).
    + reflexivity.
    + reflexivity.
    + vm_compute. reflexivity.
Defined.

(* ================================================================= *)
(** * Lookup of one card *)

(** [find] stops at the first element that passes the test. *)
Lemma find_first {A : Type} (p : A -> bool) (l : list A) (x : A) :
  find p l = Some x <->
  exists before after,
    l = (before ++ x :: after)%list
    /\ p x = true
    /\ forall y, In y before -> p y = false.
Proof.
  induction l as [|a l IH]; simpl.
  - split; [discriminate|].
    intros [[|b before] [after [H _]]]; discriminate H.
  - destruct (p a) eqn:Ea.
    + split.
      * intros [= <-]. exists [], l. simpl. repeat split; tauto.
      * intros [[|b before] [after [H [Hx Hb]]]]; simpl in H;
          injection H as <- _; [reflexivity|].
        rewrite (Hb a (or_introl eq_refl)) in Ea. discriminate Ea.
    + rewrite IH. split.
      * intros [before [after [-> [Hx Hb]]]].
        exists (a :: before), after. simpl. repeat split; try assumption.
        intros y [<-|Hy]; [assumption | now apply Hb].
      * intros [[|b before] [after [H [Hx Hb]]]]; simpl in H;
          injection H as <- H.
        -- rewrite Hx in Ea. discriminate Ea.
        -- exists before, after. repeat split; try assumption.
           intros y Hy. apply Hb. now right.
Qed.

Lemma find_absent {A : Type} (p : A -> bool) (l : list A) :
  find p l = None <-> forall y, In y l -> p y = false.
Proof.
  split; [apply find_none|].
  intro H. destruct (find p l) as [x|] eqn:E; [|reflexivity].
  apply find_some in E. destruct E as [Hin Hx].
  rewrite (H x Hin) in Hx. discriminate Hx.
Qed.

(** C6.  Lookup by id is a linear scan by id equality: on the catalog,
    id 999 raises [CARD_NOT_FOUND] (HTTP 404) and id 1 returns the
    first card of the catalog, whose id is 1, as it stands; for every
    store with a gallery the lookup raises [CARD_NOT_FOUND] exactly
    when no card has the requested id, and otherwise returns the first
    card in catalog order that has it. *)
Theorem get_card_by_id_linear_scan :
  (forall year last_updated now,
     get_card_by_id (website_data year last_updated) 999 now
     = Raise (card_not_found 999)
     /\ message (card_not_found 999) = "Card not found with ID: 999"
     /\ http_status
          (get_card_by_id (website_data year last_updated) 999 now) now
        = 404%Z)
  /\ (forall year last_updated now,
        exists c,
          nth_error cards_data 0 = Some c
          /\ card_id c = 1%Z
          /\ get_card_by_id (website_data year last_updated) 1 now
             = Return {| card := c; card_timestamp := now |} 200)
  /\ (forall wd g id now,
        gallery wd = Some g ->
        (get_card_by_id wd id now = Raise (card_not_found id) <->
         forall c, In c (gallery_cards g) -> card_id c <> id)
        /\ (forall c,
              get_card_by_id wd id now
              = Return {| card := c; card_timestamp := now |} 200 <->
              exists before after,
                gallery_cards g = (before ++ c :: after)%list
                /\ card_id c = id
                /\ forall c', In c' before -> card_id c' <> id)).
Proof.
  split; [|split].
  - intros. repeat split; reflexivity.
  - intros. eexists. repeat split; reflexivity.
  - intros wd g id now Hg. unfold get_card_by_id. rewrite Hg.
    set (p := fun c : Card => (card_id c =? id)%Z).
    assert (Hp : forall c, p c = false <-> card_id c <> id)
      by (intro c; apply Z.eqb_neq).
    split.
    + destruct (find p (gallery_cards g)) as [c|] eqn:E.
      * split; [discriminate|]. intro H.
        apply find_some in E. destruct E as [Hin Hc].
        apply (H c) in Hin. apply Hp in Hin. congruence.
      * split; [|reflexivity]. intros _ c Hc. apply Hp.
        now apply (proj1 (find_absent p _) E).
    + intro c.
      assert (Hf : find p (gallery_cards g) = Some c <->
                   exists before after,
                     gallery_cards g = (before ++ c :: after)%list
                     /\ card_id c = id
                     /\ forall c', In c' before -> card_id c' <> id).
      { rewrite find_first. unfold p at 1.
        split; intros [before [after [H1 [H2 H3]]]]; exists before, after;
          (split; [assumption|]); split.
        - now apply Z.eqb_eq.
        - intros c' Hc'. apply Hp. now apply H3.
        - now apply Z.eqb_eq.
        - intros c' Hc'. apply Hp. now apply H3. }
      rewrite <- Hf.
      destruct (find p (gallery_cards g)) as [c0|].
      * split; [intros [= ->]; reflexivity | intros [= ->]; reflexivity].
      * split; discriminate.
Qed.

Lemma get_card_by_id_linear_scan_witness :
  (get_card_by_id (website_data 2024 "2024-01-01T00:00:00") 7
     "2024-06-01T12:00:00" = Raise (card_not_found 7) <->
   forall c, In c cards_data -> card_id c <> 7%Z)
  /\ (forall c,
        get_card_by_id (website_data 2024 "2024-01-01T00:00:00") 7
          "2024-06-01T12:00:00"
        = Return {| card := c; card_timestamp := "2024-06-01T12:00:00" |}
            200 <->
        exists before after,
          cards_data = (before ++ c :: after)%list
          /\ card_id c = 7%Z
          /\ forall c', In c' before -> card_id c' <> 7%Z).
Proof.
  apply (proj2 (proj2 get_card_by_id_linear_scan)
           (website_data 2024 "2024-01-01T00:00:00") gallery_data 7%Z
           "2024-06-01T12:00:00").
  reflexivity.
Defined.

(* ================================================================= *)
(** * Sections *)

(** The backing value of each of the eight names is the attribute of
    that name. *)
Lemma getattr_sections (wd : WebsiteData) :
  map (getattr wd) valid_sections
  = [header wd; hero wd; about wd;
     option_map value_of_gallery (gallery wd);
     contact wd; footer wd; metadata wd; theme wd].
Proof. reflexivity. Qed.

(** With the static data every recognised section is present. *)
Lemma website_data_sections_present year last_updated section :
  Py.mem section valid_sections = true ->
  getattr (website_data year last_updated) section <> None.
Proof.
  intro H. apply mem_In in H. simpl in H.
  repeat (destruct H as [<-|H]; [discriminate|]). destruct H.
Qed.

(** C7.  For every section name: a name outside the eight recognised
    ones (header, hero, about, gallery, contact, footer, metadata,
    theme) raises [INVALID_SECTION] (HTTP 400); each of the eight names
    is backed by the attribute of that name of the store, and raises
    [SECTION_NOT_FOUND] (HTTP 404) when that attribute is [None], and
    otherwise returns that attribute's document, with status 200. *)
Theorem get_section_content_cases :
  forall (wd : WebsiteData) (section now : string),
    valid_sections
    = ["header"; "hero"; "about"; "gallery"; "contact"; "footer";
       "metadata"; "theme"]
    /\ (~ In section ["header"; "hero"; "about"; "gallery"; "contact";
                      "footer"; "metadata"; "theme"] ->
        get_section_content wd section now
        = Raise (invalid_section section)
        /\ http_status (get_section_content wd section now) now = 400%Z)
    /\ (forall backing,
          In (section, backing)
             [("header", header wd);
              ("hero", hero wd);
              ("about", about wd);
              ("gallery", option_map value_of_gallery (gallery wd));
              ("contact", contact wd);
              ("footer", footer wd);
              ("metadata", metadata wd);
              ("theme", theme wd)] ->
          (backing = None ->
           get_section_content wd section now
           = Raise (section_not_found section)
           /\ http_status (get_section_content wd section now) now
              = 404%Z)
          /\ (forall data,
                backing = Some data ->
                get_section_content wd section now
                = Return {| section_name := section;
                            section_data := data;
                            section_timestamp := now |} 200)).
Proof.
  intros wd section now. split; [reflexivity|]. split.
  - intro Hout. unfold get_section_content.
    destruct (Py.mem section valid_sections) eqn:Hm.
    + apply mem_In in Hm. destruct (Hout Hm).
    + split; reflexivity.
  - intros backing Hin. simpl in Hin.
    repeat (destruct Hin as [[= <- <-]|Hin];
            [unfold get_section_content, getattr; simpl;
             split; [intros Hb | intros data Hb]; rewrite Hb;
             repeat split; reflexivity|]).
    destruct Hin.
Qed.

Lemma get_section_content_cases_witness :
  (get_section_content (website_data 2024 "2024-01-01T00:00:00")
     "invalid_section" "2024-06-01T12:00:00"
   = Raise (invalid_section "invalid_section")
   /\ http_status
        (get_section_content (website_data 2024 "2024-01-01T00:00:00")
           "invalid_section" "2024-06-01T12:00:00")
        "2024-06-01T12:00:00" = 400%Z)
  /\ (let wd := {| header := Some header_data; hero := None;
                   about := None; gallery := None; contact := None;
                   footer := None; metadata := None; theme := None |} in
      get_section_content wd "hero" "2024-06-01T12:00:00"
      = Raise (section_not_found "hero")
      /\ http_status (get_section_content wd "hero" "2024-06-01T12:00:00")
           "2024-06-01T12:00:00" = 404%Z)
  /\ get_section_content (website_data 2024 "2024-01-01T00:00:00")
       "theme" "2024-06-01T12:00:00"
     = Return {| section_name := "theme";
                 section_data := theme_data;
                 section_timestamp := "2024-06-01T12:00:00" |} 200.
Proof.
  split; [|split].
  - apply (proj1 (proj2 (get_section_content_cases
             (website_data 2024 "2024-01-01T00:00:00")
             "invalid_section" "2024-06-01T12:00:00"))).
    simpl. intuition discriminate.
  - cbv zeta.
    destruct (proj2 (proj2 (get_section_content_cases
                {| header := Some header_data; hero := None;
                   about := None; gallery := None; contact := None;
                   footer := None; metadata := None; theme := None |}
                "hero" "2024-06-01T12:00:00")) None) as [H _].
    + simpl. tauto.
    + apply H. reflexivity.
  - destruct (proj2 (proj2 (get_section_content_cases
                (website_data 2024 "2024-01-01T00:00:00")
                "theme" "2024-06-01T12:00:00")) (Some theme_data))
      as [_ H].
    + simpl. tauto.
    + apply H. reflexivity.
Defined.

Lemma getattr_in_all_content wd section data :
  Py.mem section valid_sections = true ->
  getattr wd section = Some data ->
  exists body,
    get_all_content wd = Return body 200
    /\ dict_get section body = Some (Some data).
Proof.
  intros Hm Hd. eexists. split; [reflexivity|].
  apply mem_In in Hm. simpl in Hm.
  repeat (destruct Hm as [<-|Hm];
          [cbv in Hd |- *; now rewrite Hd|]).
  destruct Hm.
Qed.

(** C8.  [/api/content/header] returns the whole header document, and
    it is the value under ["header"] in the body of [/api/content];
    more generally, whatever a section request returns is the value
    under that section's name in the body of [/api/content]. *)
Theorem header_section_equals_all_content :
  (forall year last_updated now,
     get_section_content (website_data year last_updated) "header" now
     = Return {| section_name := "header";
                 section_data := header_data;
                 section_timestamp := now |} 200
     /\ exists body,
          get_all_content (website_data year last_updated)
          = Return body 200
          /\ dict_get "header" body = Some (Some header_data))
  /\ (forall wd section now r status,
        get_section_content wd section now = Return r status ->
        exists body,
          get_all_content wd = Return body 200
          /\ dict_get section body = Some (Some (section_data r))).
Proof.
  split.
  - intros. split; [reflexivity|]. eexists. split; reflexivity.
  - intros wd section now r status. unfold get_section_content.
    destruct (Py.mem section valid_sections) eqn:Hm; simpl;
      [|discriminate].
    destruct (getattr wd section) as [data|] eqn:Hd; [|discriminate].
    intros [= <- _]. simpl. now apply getattr_in_all_content.
Qed.

Lemma header_section_equals_all_content_witness :
  exists body,
    get_all_content (website_data 2024 "2024-01-01T00:00:00")
    = Return body 200
    /\ dict_get "gallery" body = Some (Some (value_of_gallery gallery_data)).
Proof.
  apply (proj2 header_section_equals_all_content
           (website_data 2024 "2024-01-01T00:00:00") "gallery"
           "2024-06-01T12:00:00"
           {| section_name := "gallery";
              section_data := value_of_gallery gallery_data;
              section_timestamp := "2024-06-01T12:00:00" |} 200%Z).
  reflexivity.
Defined.

(* ================================================================= *)
(** * The catalog invariant *)

Lemma run_keeps_store debug wd reqs :
  fst (run debug wd reqs) = wd.
Proof.
  revert wd. induction reqs as [|[req now] reqs IH]; intro wd; simpl.
  - reflexivity.
  - specialize (IH wd). destruct (run debug wd reqs) as [wd' resps].
    exact IH.
Qed.

Lemma gallery_data_categories_declared : categories_declared gallery_data.
Proof.
  intros c Hc. simpl in Hc.
  repeat (destruct Hc as [<-|Hc]; [simpl; tauto|]). destruct Hc.
Qed.

(** C9.  Every card of the static catalog has a category of the
    separately declared category list, the list [/api/categories]
    returns; no request changes the store, so this holds of the store
    after every sequence of requests. *)
Theorem catalog_categories_declared :
  forall (debug : bool) (year : Z) (last_updated : string)
         (reqs : list (request * string)),
    let wd := fst (run debug (website_data year last_updated) reqs) in
    exists g,
      gallery wd = Some g
      /\ gallery_cards g = cards_data
      /\ gallery_categories g = categories_data
      /\ categories_declared g
      /\ forall now,
           get_categories wd now
           = Return {| categories := gallery_categories g;
                       categories_total_count := 6;
                       categories_timestamp := now |} 200.
Proof.
  intros debug year last_updated reqs wd. subst wd.
  rewrite run_keeps_store. exists gallery_data.
  repeat split. apply gallery_data_categories_declared.
Qed.

(* ================================================================= *)
(** * The [tags] parameter *)

Lemma split_comma_cons (s : string) :
  exists first rest, Py.split_comma s = first :: rest.
Proof.
  induction s as [|c s [first [rest IH]]]; simpl.
  - now exists "", [].
  - destruct (Ascii.eqb c ","); [now eexists _, _|].
    rewrite IH. now eexists _, _.
Qed.

Lemma split_comma_leading_comma (rest : string) :
  Py.split_comma ("," ++ rest) = "" :: Py.split_comma rest.
Proof. reflexivity. Qed.

(** The tag list [get_cards] builds, and whether it takes it as given. *)
Lemma parse_filters_tags args s :
  args_get "tags" args = Some s ->
  tags_given (tags (parse_filters args))
  = Py.truthy (hd "" (Py.split_comma s))
  /\ (tags_given (tags (parse_filters args)) = true ->
      tags (parse_filters args) = Py.split_comma s).
Proof.
  intro H. unfold parse_filters; simpl. rewrite H.
  destruct s as [|c s]; [split; [reflexivity | discriminate]|].
  cbn [Py.truthy].
  destruct (split_comma_cons (String c s)) as [first [rest E]].
  rewrite E. split; reflexivity.
Qed.

(** C10.  The tag filter of [/api/cards] runs only when the first
    comma-separated element of [tags] is a non-empty string.  For every
    request whose [tags] value begins with a comma the tag filter is
    skipped: the cards that pass the category and price filters are all
    returned, and [filters_applied] reports [tags] as [None]. *)
Theorem tags_filter_needs_first_element :
  forall (wd : WebsiteData) (g : Gallery) (args : Args) (now s : string),
    gallery wd = Some g ->
    args_get "tags" args = Some s ->
    let spec := parse_filters args in
    let others :=
      filter_max_price (max_price spec)
        (filter_min_price (min_price spec)
           (filter_category (category spec) (gallery_cards g))) in
    exists r,
      get_cards wd args now = Return r 200
      /\ (hd "" (Py.split_comma s) = "" ->
          cards r = others
          /\ applied_tags (filters_applied r) = None)
      /\ (hd "" (Py.split_comma s) <> "" ->
          cards r = filter (shares_tag (Py.split_comma s)) others
          /\ applied_tags (filters_applied r) = Some (Py.split_comma s))
      /\ (forall rest, s = "," ++ rest ->
          cards r = others
          /\ applied_tags (filters_applied r) = None).
Proof.
  intros wd g args now s Hg Hs spec others.
  rewrite (get_cards_returns wd g args now Hg). fold spec.
  destruct (parse_filters_tags args s Hs) as [Hgiven Htags].
  fold spec in Hgiven, Htags. clearbody spec.
  eexists. split; [reflexivity|]. cbn [cards filters_applied].
  assert (Hskip : hd "" (Py.split_comma s) = "" ->
            filter_cards (gallery_cards g) spec = others
            /\ applied_tags (echo_filters spec) = None).
  { intro E. rewrite E in Hgiven. simpl in Hgiven.
    subst others.
    unfold filter_cards, filter_tags, echo_filters; cbn [applied_tags].
    rewrite Hgiven. split; reflexivity. }
  split; [exact Hskip|]. split.
  - intro E.
    assert (Ht : Py.truthy (hd "" (Py.split_comma s)) = true)
      by (destruct (hd "" (Py.split_comma s)); [congruence | reflexivity]).
    rewrite Ht in Hgiven. specialize (Htags Hgiven).
    subst others.
    unfold filter_cards, filter_tags, echo_filters; cbn [applied_tags].
    rewrite Hgiven, Htags. split; reflexivity.
  - intros rest ->. apply Hskip. reflexivity.
Qed.

Lemma tags_filter_needs_first_element_witness :
  exists r,
    get_cards (website_data 2024 "2024-01-01T00:00:00")
      [("category", "sympathy"); ("tags", ",birthday")]
      "2024-06-01T12:00:00" = Return r 200
    /\ map card_id (cards r) = [2%Z]
    /\ applied_tags (filters_applied r) = None.
Proof.
  destruct (tags_filter_needs_first_element
              (website_data 2024 "2024-01-01T00:00:00") gallery_data
              [("category", "sympathy"); ("tags", ",birthday")]
              "2024-06-01T12:00:00" ",birthday" eq_refl eq_refl)
    as [r [Hr [_ [_ H]]]].
  exists r. split; [exact Hr|].
  destruct (H "birthday" eq_refl) as [Hc Ha].
  split; [rewrite Hc; reflexivity | exact Ha].
Defined.

(* ================================================================= *)
(** * Malformed price bounds *)

Lemma args_get_remove (key key' : string) (args : Args) :
  args_get key (args_remove key' args)
  = if key =? key' then None else args_get key args.
Proof.
  unfold args_get, args_remove.
  induction args as [|[k v] args IH]; simpl.
  - now destruct (key =? key').
  - destruct (k =? key') eqn:Ek; simpl.
    + rewrite IH. apply String.eqb_eq in Ek. subst k.
      rewrite (String.eqb_sym key' key).
      now destruct (key =? key').
    + destruct (k =? key) eqn:E; [|exact IH].
      apply String.eqb_eq in E. subst k. now rewrite Ek.
Qed.

(** C1, as stated, fails: [min_price=abc] is answered with status 200
    and the whole catalog, not with an error of status 400. *)
Lemma get_cards_malformed_price_counterexample :
  let args := [("min_price", "abc")] in
  let now := "2024-06-01T12:00:00" in
  let wd := website_data 2024 "2024-01-01T00:00:00" in
  args_get "min_price" args = Some "abc"
  /\ Py.float "abc" = None
  /\ get_cards wd args now
     = Return {| cards := cards_data;
                 total_count := 6;
                 filters_applied :=
                   {| applied_category := None;
                      applied_min_price := None;
                      applied_max_price := None;
                      applied_tags := None |};
                 cards_timestamp := now |} 200
  /\ http_status (get_cards wd args now) now = 200%Z
  /\ ~ (exists e, get_cards wd args now = Raise e
                  /\ status_code e = 400%Z).
Proof.
  cbv zeta. split; [reflexivity|]. split; [reflexivity|].
  split; [reflexivity|]. split; [reflexivity|].
  intros [e [H _]]. discriminate H.
Qed.

(** C1 (amended).  For every [/api/cards] request whose [min_price]
    and [max_price] values are ASCII text and in which one of them is
    a string that [float] rejects, no error is signalled: the
    parameter counts as absent.  The answer has status 200, it is the
    answer to the same request without that parameter, the bound is
    reported as [None] in [filters_applied], and the cards are filtered
    by the other parameters only. *)
Theorem get_cards_malformed_price_ignored :
  forall (wd : WebsiteData) (g : Gallery) (args : Args) (now s : string),
    gallery wd = Some g ->
    ascii_prices args = true ->
    Py.float s = None ->
    let spec := parse_filters args in
    (args_get "min_price" args = Some s ->
     exists r,
       get_cards wd args now = Return r 200
       /\ get_cards wd (args_remove "min_price" args) now = Return r 200
       /\ applied_min_price (filters_applied r) = None
       /\ cards r
          = filter_tags (tags spec)
              (filter_max_price (max_price spec)
                 (filter_category (category spec) (gallery_cards g))))
    /\ (args_get "max_price" args = Some s ->
        exists r,
          get_cards wd args now = Return r 200
          /\ get_cards wd (args_remove "max_price" args) now = Return r 200
          /\ applied_max_price (filters_applied r) = None
          /\ cards r
             = filter_tags (tags spec)
                 (filter_min_price (min_price spec)
                    (filter_category (category spec) (gallery_cards g)))).
Proof.
  intros wd g args now s Hg _ Hf spec. subst spec.
  rewrite !(get_cards_returns wd g _ now Hg).
  split; intro Hs.
  - assert (Hmin : min_price (parse_filters args) = None)
      by (unfold parse_filters, args_get_float; simpl; now rewrite Hs, Hf).
    assert (Hrm : parse_filters (args_remove "min_price" args)
                  = parse_filters args).
    { unfold parse_filters, args_get_float in *; simpl in *.
      rewrite !args_get_remove; simpl. now rewrite Hmin. }
    rewrite Hrm. clear Hrm.
    destruct (parse_filters args) as [cat lo hi ts].
    simpl in Hmin. subst.
    eexists. repeat split; reflexivity.
  - assert (Hmax : max_price (parse_filters args) = None)
      by (unfold parse_filters, args_get_float; simpl; now rewrite Hs, Hf).
    assert (Hrm : parse_filters (args_remove "max_price" args)
                  = parse_filters args).
    { unfold parse_filters, args_get_float in *; simpl in *.
      rewrite !args_get_remove; simpl. now rewrite Hmax. }
    rewrite Hrm. clear Hrm.
    destruct (parse_filters args) as [cat lo hi ts].
    simpl in Hmax. subst.
    eexists. repeat split; reflexivity.
Qed.

Lemma get_cards_malformed_price_ignored_witness :
  (exists r,
     get_cards (website_data 2024 "2024-01-01T00:00:00")
       [("min_price", "cheap"); ("max_price", "5.0")]
       "2024-06-01T12:00:00" = Return r 200
     /\ applied_min_price (filters_applied r) = None
     /\ map card_id (cards r) = [1%Z; 4%Z; 5%Z; 6%Z])
  /\ (exists r,
        get_cards (website_data 2024 "2024-01-01T00:00:00")
          [("min_price", "5.0"); ("max_price", "cheap")]
          "2024-06-01T12:00:00" = Return r 200
        /\ applied_max_price (filters_applied r) = None
        /\ map card_id (cards r) = [2%Z; 3%Z]).
Proof.
  split.
  - destruct (proj1 (get_cards_malformed_price_ignored
                       (website_data 2024 "2024-01-01T00:00:00")
                       gallery_data
                       [("min_price", "cheap"); ("max_price", "5.0")]
                       "2024-06-01T12:00:00" "cheap"
                       eq_refl eq_refl eq_refl)
                eq_refl)
      as [r [Hr [_ [Ha Hc]]]].
    exists r. split; [exact Hr|]. split; [exact Ha|].
    rewrite Hc. vm_compute. reflexivity.
  - destruct (proj2 (get_cards_malformed_price_ignored
                       (website_data 2024 "2024-01-01T00:00:00")
                       gallery_data
                       [("min_price", "5.0"); ("max_price", "cheap")]
                       "2024-06-01T12:00:00" "cheap"
                       eq_refl eq_refl eq_refl)
                eq_refl)
      as [r [Hr [_ [Ha Hc]]]].
    exists r. split; [exact Hr|]. split; [exact Ha|].
    rewrite Hc. vm_compute. reflexivity.
Defined.

(* ================================================================= *)
(** * More on the order of binary64 values *)

Lemma SFleb_trans (a b c : spec_float) :
  SFleb a b = true -> SFleb b c = true -> SFleb a c = true.
Proof.
  unfold SFleb.
  destruct a as [sa|sa| |sa ma ea], b as [sb|sb| |sb mb eb],
           c as [sc|sc| |sc mc ec]; simpl;
    try destruct sa; try destruct sb; try destruct sc; simpl;
    try discriminate; try reflexivity;
    change (PosDef.Pos.compare_cont Eq) with Pos.compare;
    repeat match goal with
           | |- context [Z.compare ?x ?y] =>
               destruct (Z.compare_spec x y); simpl
           | |- context [Pos.compare ?x ?y] =>
               destruct (Pos.compare_spec x y); simpl
           end;
    try discriminate; try reflexivity; intros _ _; exfalso; subst; lia.
Qed.

Lemma float_leb_trans (x y z : float) :
  (x <=? y)%float = true -> (y <=? z)%float = true ->
  (x <=? z)%float = true.
Proof. rewrite !leb_spec. apply SFleb_trans. Qed.

(** A NaN is neither below nor above anything. *)
Lemma float_leb_nan (x y : float) :
  is_nan x = true ->
  (x <=? y)%float = false /\ (y <=? x)%float = false.
Proof.
  intro H. rewrite !leb_spec.
  assert (E : Prim2SF x = S754_nan) by (unfold Prim2SF; now rewrite H).
  rewrite E. split; [reflexivity|].
  unfold SFleb. now destruct (Prim2SF y) as [[]|[]| |[]].
Qed.

(* ================================================================= *)
(** * The card list of a response *)

Lemma filter_cards_incl cards spec c :
  In c (filter_cards cards spec) -> In c cards.
Proof. rewrite filter_cards_passes, filter_In. tauto. Qed.

Lemma filter_shorter {A : Type} (p : A -> bool) (l : list A) :
  (List.length (filter p l) <= List.length l)%nat.
Proof.
  induction l as [|x l IH]; simpl; [lia|]. destruct (p x); simpl; lia.
Qed.

(** X1.  Whatever the query string, [/api/cards] answers 200 when the
    store has a gallery and the 500 error [CARDS_RETRIEVAL_FAILED] when
    it has none.  In the 200 answer [total_count] is the number of
    cards returned, at most the size of the catalog; every card
    returned is a catalog card, and none is returned twice unless the
    catalog repeats it. *)
Theorem get_cards_answer_shape :
  forall (wd : WebsiteData) (args : Args) (now : string),
    (forall g, gallery wd = Some g ->
       exists r,
         get_cards wd args now = Return r 200
         /\ total_count r = Z.of_nat (List.length (cards r))
         /\ (0 <= total_count r
             <= Z.of_nat (List.length (gallery_cards g)))%Z
         /\ (forall c, In c (cards r) -> In c (gallery_cards g))
         /\ (NoDup (gallery_cards g) -> NoDup (cards r))
         /\ cards_timestamp r = now)
    /\ (gallery wd = None ->
        exists e,
          get_cards wd args now = Raise e
          /\ status_code e = 500%Z
          /\ error_code e = "CARDS_RETRIEVAL_FAILED").
Proof.
  intros wd args now. split.
  - intros g Hg. rewrite (get_cards_returns wd g args now Hg).
    eexists. split; [reflexivity|]. simpl.
    split; [reflexivity|]. split; [|split; [|split]].
    + rewrite filter_cards_passes.
      pose proof (filter_shorter (passes (parse_filters args))
                    (gallery_cards g)). lia.
    + intro c. apply filter_cards_incl.
    + rewrite filter_cards_passes. apply NoDup_filter.
    + reflexivity.
  - intro Hg. unfold get_cards. rewrite Hg.
    eexists. repeat split.
Qed.

Lemma get_cards_answer_shape_witness :
  (exists r,
     get_cards (website_data 2024 "2024-01-01T00:00:00")
       [("max_price", "4.99"); ("sort", "price")]
       "2024-06-01T12:00:00" = Return r 200
     /\ total_count r = Z.of_nat (List.length (cards r))
     /\ (0 <= total_count r <= 6)%Z)
  /\ exists e,
       get_cards {| header := None; hero := None; about := None;
                    gallery := None; contact := None; footer := None;
                    metadata := None; theme := None |}
         [("max_price", "4.99")] "2024-06-01T12:00:00" = Raise e
       /\ status_code e = 500%Z.
Proof.
  split.
  - destruct (proj1 (get_cards_answer_shape
                       (website_data 2024 "2024-01-01T00:00:00")
                       [("max_price", "4.99"); ("sort", "price")]
                       "2024-06-01T12:00:00") gallery_data eq_refl)
      as [r [Hr [Hn [Hb _]]]].
    exists r. split; [exact Hr|]. split; [exact Hn | exact Hb].
  - destruct (proj2 (get_cards_answer_shape
                       {| header := None; hero := None; about := None;
                          gallery := None; contact := None;
                          footer := None; metadata := None;
                          theme := None |}
                       [("max_price", "4.99")] "2024-06-01T12:00:00")
                eq_refl)
      as [e [He [Hs _]]].
    exists e. split; [exact He | exact Hs].
Defined.

(* ================================================================= *)
(** * How the four comprehensions compose *)

Lemma filter_comm {A : Type} (p q : A -> bool) (l : list A) :
  filter p (filter q l) = filter q (filter p l).
Proof.
  rewrite !filter_filter. apply filter_ext. intro x. apply andb_comm.
Qed.

Ltac stages_as_filters :=
  rewrite ?filter_tags_as_filter, ?filter_max_price_as_filter,
    ?filter_min_price_as_filter, ?filter_category_as_filter.

(** X2.  The four comprehensions commute pairwise, so the cards
    returned do not depend on the order in which the code applies the
    category, price and tag tests; in particular the reverse order
    gives the result of [filter_cards]. *)
Theorem filter_stages_commute :
  forall (cards : list Card) (spec : FilterSpec),
    let cat := filter_category (category spec) in
    let lo := filter_min_price (min_price spec) in
    let hi := filter_max_price (max_price spec) in
    let tg := filter_tags (tags spec) in
    cat (lo cards) = lo (cat cards)
    /\ cat (hi cards) = hi (cat cards)
    /\ cat (tg cards) = tg (cat cards)
    /\ lo (hi cards) = hi (lo cards)
    /\ lo (tg cards) = tg (lo cards)
    /\ hi (tg cards) = tg (hi cards)
    /\ cat (lo (hi (tg cards))) = filter_cards cards spec.
Proof.
  intros cards spec cat lo hi tg. subst cat lo hi tg.
  repeat split; try (stages_as_filters; apply filter_comm).
  rewrite filter_cards_passes. stages_as_filters.
  rewrite !filter_filter. apply filter_ext. intro c. unfold passes.
  destruct (if category_given (category spec)
            then match category spec with
                 | Some wanted => card_category c =? wanted
                 | None => true
                 end
            else true),
           (match min_price spec with
            | Some lo => (lo <=? card_price c)%float
            | None => true
            end),
           (match max_price spec with
            | Some hi => (card_price c <=? hi)%float
            | None => true
            end),
           (if tags_given (tags spec)
            then shares_tag (tags spec) c else true);
    reflexivity.
Qed.

(* ================================================================= *)
(** * Tightening and degenerate price bounds *)

(** X3.  Narrowing the price range narrows the result: with
    [lo <= lo'] and [hi' <= hi], every card returned for the bounds
    [lo'], [hi'] is returned for the bounds [lo], [hi], the category
    and tags being the same; dropping a bound altogether widens the
    result as well. *)
Theorem price_bounds_monotone :
  forall (cards : list Card) (wanted_category : option string)
         (wanted_tags : list string) (lo lo' hi hi' : float) (c : Card),
    (lo <=? lo')%float = true ->
    (hi' <=? hi)%float = true ->
    In c (filter_cards cards
            {| category := wanted_category; min_price := Some lo';
               max_price := Some hi'; tags := wanted_tags |}) ->
    In c (filter_cards cards
            {| category := wanted_category; min_price := Some lo;
               max_price := Some hi; tags := wanted_tags |})
    /\ In c (filter_cards cards
               {| category := wanted_category; min_price := None;
                  max_price := Some hi; tags := wanted_tags |})
    /\ In c (filter_cards cards
               {| category := wanted_category; min_price := Some lo;
                  max_price := None; tags := wanted_tags |}).
Proof.
  intros cards wc wt lo lo' hi hi' c Hlo Hhi.
  rewrite !filter_cards_passes, !filter_In. unfold passes; simpl.
  rewrite !andb_true_iff. intros [Hin [[[Hc Hl] Hh] Ht]].
  pose proof (float_leb_trans _ _ _ Hlo Hl) as Hl'.
  pose proof (float_leb_trans _ _ _ Hh Hhi) as Hh'.
  repeat split; assumption.
Qed.

Lemma price_bounds_monotone_witness :
  exists c,
    nth_error cards_data 0 = Some c
    /\ In c (filter_cards cards_data
               {| category := None; min_price := Some 4%float;
                  max_price := Some 6%float; tags := [] |}).
Proof.
  eexists. split; [reflexivity|].
  apply (price_bounds_monotone cards_data None [] 4 4.5 6 5.5).
  - reflexivity.
  - reflexivity.
  - simpl. tauto.
Defined.

(** X4.  A NaN bound excludes every card: when [min_price] or
    [max_price] parses to a NaN (the text [nan] does), the cards
    returned are the empty list, with status 200 and [total_count]
    zero. *)
Theorem nan_bound_empties :
  forall (wd : WebsiteData) (g : Gallery) (args : Args) (now : string)
         (x : float),
    gallery wd = Some g ->
    is_nan x = true ->
    args_get_float "min_price" args = Some x
    \/ args_get_float "max_price" args = Some x ->
    exists r,
      get_cards wd args now = Return r 200
      /\ cards r = []
      /\ total_count r = 0%Z.
Proof.
  intros wd g args now x Hg Hx Hb.
  rewrite (get_cards_returns wd g args now Hg).
  eexists. split; [reflexivity|]. simpl.
  assert (E : filter_cards (gallery_cards g) (parse_filters args) = []).
  { rewrite filter_cards_passes. apply filter_none. intros c _.
    unfold passes, parse_filters; simpl.
    destruct Hb as [Hb|Hb]; rewrite Hb.
    - rewrite (proj1 (float_leb_nan x (card_price c) Hx)).
      now rewrite andb_false_r.
    - rewrite (proj2 (float_leb_nan x (card_price c) Hx)).
      now rewrite andb_false_r. }
  rewrite E. split; reflexivity.
Qed.

Lemma nan_bound_empties_witness :
  exists r,
    get_cards (website_data 2024 "2024-01-01T00:00:00")
      [("min_price", "nan")] "2024-06-01T12:00:00" = Return r 200
    /\ cards r = []
    /\ total_count r = 0%Z.
Proof.
  apply (nan_bound_empties (website_data 2024 "2024-01-01T00:00:00")
           gallery_data [("min_price", "nan")] "2024-06-01T12:00:00"
           nan).
  - reflexivity.
  - reflexivity.
  - left. reflexivity.
Defined.

(* ================================================================= *)
(** * What the tag list means *)

Lemma shares_tag_same_elements wanted wanted' c :
  (forall t, In t (card_tags c) -> (In t wanted <-> In t wanted')) ->
  shares_tag wanted c = shares_tag wanted' c.
Proof.
  intro H. apply eq_true_iff_eq. rewrite !shares_tag_iff.
  split; intros [t [Hc Hw]]; exists t; (split; [assumption|]);
    now apply (H t Hc).
Qed.

(** X5.  Once the tag filter runs, only the set of requested tags
    counts: two tag lists with non-empty first elements and the same
    elements, in whatever order and however often repeated, select the
    same cards.  When no card carries the empty string as a tag, the
    empty pieces of the list (from a doubled or trailing comma) change
    nothing either. *)
Theorem filter_tags_set_of_tags :
  forall (wanted wanted' : list string) (cards : list Card),
    tags_given wanted = true ->
    tags_given wanted' = true ->
    ((forall t, In t wanted <-> In t wanted') ->
     filter_tags wanted cards = filter_tags wanted' cards)
    /\ ((forall c, In c cards -> ~ In "" (card_tags c)) ->
        (forall t, In t (proper_tags wanted)
                   <-> In t (proper_tags wanted')) ->
        filter_tags wanted cards = filter_tags wanted' cards).
Proof.
  intros wanted wanted' cards Hw Hw'. unfold filter_tags.
  rewrite Hw, Hw'. split.
  - intro H. apply filter_ext. intro c.
    apply shares_tag_same_elements. intros t _. apply H.
  - intros Hne H. apply filter_ext_in. intros c Hc.
    apply shares_tag_same_elements. intros t Ht.
    assert (Hp : Py.truthy t = true).
    { destruct t; [|reflexivity]. now destruct (Hne c Hc). }
    specialize (H t). unfold proper_tags in H.
    rewrite !filter_In in H. tauto.
Qed.

Lemma filter_tags_set_of_tags_witness :
  filter_tags (Py.split_comma "birthday,gold") cards_data
  = filter_tags (Py.split_comma "gold,birthday,gold") cards_data
  /\ filter_tags (Py.split_comma "birthday,gold") cards_data
     = filter_tags (Py.split_comma "gold,,birthday,") cards_data.
Proof.
  split.
  - apply (proj1 (filter_tags_set_of_tags
                    (Py.split_comma "birthday,gold")
                    (Py.split_comma "gold,birthday,gold")
                    cards_data eq_refl eq_refl)).
    intro t. simpl. tauto.
  - apply (proj2 (filter_tags_set_of_tags
                    (Py.split_comma "birthday,gold")
                    (Py.split_comma "gold,,birthday,")
                    cards_data eq_refl eq_refl)).
    + intros c Hc. simpl in Hc.
      repeat (destruct Hc as [<-|Hc];
              [simpl; intuition discriminate|]).
      destruct Hc.
    + intro t. simpl. tauto.
Defined.

(* ================================================================= *)
(** * Categories nobody has, and parameters left empty *)

Lemma filters_of_nil spec : filter_cards [] spec = [].
Proof. now rewrite filter_cards_passes. Qed.

(** X6.  In a store whose cards all have a declared category, asking
    for a non-empty category outside the declared list is no error: the
    answer is 200 with no cards and [total_count] zero, whatever the
    other parameters. *)
Theorem undeclared_category_empty :
  forall (wd : WebsiteData) (g : Gallery) (args : Args)
         (now wanted : string),
    gallery wd = Some g ->
    categories_declared g ->
    args_get "category" args = Some wanted ->
    wanted <> "" ->
    ~ In wanted (gallery_categories g) ->
    exists r,
      get_cards wd args now = Return r 200
      /\ cards r = []
      /\ total_count r = 0%Z
      /\ applied_category (filters_applied r) = Some wanted.
Proof.
  intros wd g args now wanted Hg Hd Hc Hne Hout.
  rewrite (get_cards_returns wd g args now Hg).
  eexists. split; [reflexivity|]. simpl.
  assert (E : filter_cards (gallery_cards g) (parse_filters args) = []).
  { rewrite filter_cards_passes. apply filter_none. intros c Hin.
    unfold passes, parse_filters; simpl. rewrite Hc.
    assert (Ht : category_given (Some wanted) = true)
      by (destruct wanted; [congruence | reflexivity]).
    rewrite Ht.
    destruct (card_category c =? wanted) eqn:Ec; [|reflexivity].
    apply String.eqb_eq in Ec. subst wanted.
    destruct (Hout (Hd c Hin)). }
  rewrite E, Hc. repeat split.
Qed.

Lemma undeclared_category_empty_witness :
  exists r,
    get_cards (website_data 2024 "2024-01-01T00:00:00")
      [("category", "anniversary")] "2024-06-01T12:00:00" = Return r 200
    /\ cards r = []
    /\ total_count r = 0%Z
    /\ applied_category (filters_applied r) = Some "anniversary".
Proof.
  apply (undeclared_category_empty
           (website_data 2024 "2024-01-01T00:00:00") gallery_data
           [("category", "anniversary")] "2024-06-01T12:00:00"
           "anniversary").
  - reflexivity.
  - exact gallery_data_categories_declared.
  - reflexivity.
  - discriminate.
  - simpl. intuition discriminate.
Defined.

(** X7.  A parameter given with an empty value filters like a missing
    one.  When each of [category], [min_price], [max_price] and [tags]
    is missing or empty, the whole catalog is returned in catalog
    order; [filters_applied] then holds [None] for the bounds and the
    tags, and the category as it was sent. *)
Theorem empty_parameters_return_catalog :
  forall (wd : WebsiteData) (g : Gallery) (args : Args) (now : string),
    gallery wd = Some g ->
    (forall key,
       In key ["category"; "min_price"; "max_price"; "tags"] ->
       args_get key args = None \/ args_get key args = Some "") ->
    get_cards wd args now
    = Return {| cards := gallery_cards g;
                total_count := Z.of_nat (List.length (gallery_cards g));
                filters_applied :=
                  {| applied_category := args_get "category" args;
                     applied_min_price := None;
                     applied_max_price := None;
                     applied_tags := None |};
                cards_timestamp := now |} 200.
Proof.
  intros wd g args now Hg H.
  rewrite (get_cards_returns wd g args now Hg).
  assert (Hc := H "category" (or_introl eq_refl)).
  assert (Hl := H "min_price" (or_intror (or_introl eq_refl))).
  assert (Hh := H "max_price"
                  (or_intror (or_intror (or_introl eq_refl)))).
  assert (Ht := H "tags"
                  (or_intror (or_intror (or_intror (or_introl eq_refl))))).
  unfold filter_cards, echo_filters, parse_filters, args_get_float.
  cbn [category min_price max_price tags].
  destruct Hc as [-> | ->], Hl as [-> | ->], Hh as [-> | ->],
           Ht as [-> | ->]; reflexivity.
Qed.

Lemma empty_parameters_return_catalog_witness :
  exists r,
    get_cards (website_data 2024 "2024-01-01T00:00:00")
      [("category", ""); ("tags", ""); ("min_price", "")]
      "2024-06-01T12:00:00" = Return r 200
    /\ cards r = cards_data
    /\ applied_category (filters_applied r) = Some "".
Proof.
  eexists. split; [|split].
  - apply (empty_parameters_return_catalog
             (website_data 2024 "2024-01-01T00:00:00") gallery_data
             [("category", ""); ("tags", ""); ("min_price", "")]
             "2024-06-01T12:00:00" eq_refl).
    intros key Hk. simpl in Hk.
    repeat (destruct Hk as [<-|Hk]; [vm_compute; tauto|]).
    destruct Hk.
  - reflexivity.
  - reflexivity.
Defined.

(* ================================================================= *)
(** * Cards and their ids *)

Lemma find_unique_id (cards : list Card) (c : Card) :
  NoDup (map card_id cards) ->
  In c cards ->
  find (fun c' => (card_id c' =? card_id c)%Z) cards = Some c.
Proof.
  induction cards as [|a cards IH]; simpl; [tauto|].
  intros Hnd Hin. inversion Hnd as [|? ? Hnotin Hnd']; subst.
  destruct Hin as [->|Hin].
  - now rewrite Z.eqb_refl.
  - destruct (Z.eqb_spec (card_id a) (card_id c)) as [E|_].
    + destruct Hnotin. rewrite E. now apply in_map.
    + now apply IH.
Qed.

Lemma cards_data_ids_unique : NoDup (map card_id cards_data).
Proof.
  simpl. repeat constructor; simpl; intuition discriminate.
Qed.

(** X8.  In a store whose card ids are pairwise distinct, as in the
    catalog, the id finds the card: looking up the id of a catalog
    card returns that very card, and so does looking up the id of any
    card that [/api/cards] returned. *)
Theorem card_ids_find_cards :
  forall (wd : WebsiteData) (g : Gallery) (now : string),
    gallery wd = Some g ->
    NoDup (map card_id (gallery_cards g)) ->
    (forall c, In c (gallery_cards g) ->
       get_card_by_id wd (card_id c) now
       = Return {| card := c; card_timestamp := now |} 200)
    /\ (forall args now' r status c,
          get_cards wd args now' = Return r status ->
          In c (cards r) ->
          get_card_by_id wd (card_id c) now
          = Return {| card := c; card_timestamp := now |} 200).
Proof.
  intros wd g now Hg Hnd.
  assert (H : forall c, In c (gallery_cards g) ->
            get_card_by_id wd (card_id c) now
            = Return {| card := c; card_timestamp := now |} 200).
  { intros c Hc. unfold get_card_by_id. rewrite Hg.
    now rewrite (find_unique_id _ c Hnd Hc). }
  split; [exact H|].
  intros args now' r status c Hr Hc. apply H.
  rewrite (get_cards_returns wd g args now' Hg) in Hr.
  injection Hr as <- _. simpl in Hc. now apply filter_cards_incl in Hc.
Qed.

Lemma card_ids_find_cards_witness :
  exists c,
    nth_error cards_data 2 = Some c
    /\ get_card_by_id (website_data 2024 "2024-01-01T00:00:00")
         (card_id c) "2024-06-01T12:00:00"
       = Return {| card := c;
                   card_timestamp := "2024-06-01T12:00:00" |} 200.
Proof.
  eexists. split; [reflexivity|].
  apply (proj1 (card_ids_find_cards
                  (website_data 2024 "2024-01-01T00:00:00") gallery_data
                  "2024-06-01T12:00:00" eq_refl cards_data_ids_unique)).
  simpl. tauto.
Defined.

(* ================================================================= *)
(** * The section route against the content route *)

Lemma all_content_lookup (wd : WebsiteData) (section : string) :
  exists body,
    get_all_content wd = Return body 200
    /\ dict_get section body
       = if Py.mem section valid_sections
         then Some (getattr wd section) else None.
Proof.
  eexists. split; [reflexivity|].
  unfold Py.mem, valid_sections, getattr. cbn [existsb dict_get].
  rewrite !(String.eqb_sym _ section).
  repeat match goal with
         | |- context [section =? ?k] =>
             destruct (section =? k); [reflexivity|]
         end.
  reflexivity.
Qed.

(** X9.  The section route and the content route agree on every name.
    The keys of the body of [/api/content] are the eight section names;
    a name that is not a key of it is answered with [INVALID_SECTION],
    a key whose value is [None] with [SECTION_NOT_FOUND], and a key
    with a value by that value. *)
Theorem section_route_matches_content :
  forall (wd : WebsiteData) (section now : string),
    exists body,
      get_all_content wd = Return body 200
      /\ (dict_get section body <> None <-> In section valid_sections)
      /\ (dict_get section body = None <->
          get_section_content wd section now
          = Raise (invalid_section section))
      /\ (dict_get section body = Some None <->
          get_section_content wd section now
          = Raise (section_not_found section))
      /\ (forall data,
            dict_get section body = Some (Some data) <->
            get_section_content wd section now
            = Return {| section_name := section;
                        section_data := data;
                        section_timestamp := now |} 200).
Proof.
  intros wd section now.
  destruct (all_content_lookup wd section) as [body [Hb Hl]].
  exists body. split; [exact Hb|]. split.
  { rewrite Hl. destruct (Py.mem section valid_sections) eqn:Hm.
    - split; [intros _; now apply mem_In | discriminate].
    - split; [congruence|]. intro Hin. apply mem_In in Hin. congruence. }
  rewrite Hl. unfold get_section_content.
  destruct (Py.mem section valid_sections); simpl.
  - destruct (getattr wd section) as [d|].
    + split; [split; discriminate|]. split; [split; discriminate|].
      intro data. split; intros [= ->]; reflexivity.
    + split; [split; discriminate|]. split; [tauto|].
      intro data. split; discriminate.
  - split; [tauto|]. split; [split; discriminate|].
    intro data. split; discriminate.
Qed.

(** X10.  [/api/contact] never fails: it answers 200 also when the
    store has no contact section, with [None] for the contact, where
    the section route answers [SECTION_NOT_FOUND]; when there is a
    contact section both routes return it. *)
Theorem contact_route_and_section_route :
  forall (wd : WebsiteData) (now : string),
    exists r,
      get_contact_info wd now = Return r 200
      /\ contact_timestamp r = now
      /\ (contact_info r = None <->
          get_section_content wd "contact" now
          = Raise (section_not_found "contact"))
      /\ (forall data,
            contact_info r = Some data <->
            get_section_content wd "contact" now
            = Return {| section_name := "contact";
                        section_data := data;
                        section_timestamp := now |} 200).
Proof.
  intros wd now. eexists. split; [reflexivity|]. simpl.
  split; [reflexivity|].
  unfold get_section_content; simpl. change (getattr wd "contact")
    with (contact wd).
  destruct (contact wd) as [d|].
  - split; [split; discriminate|].
    intro data. split; intros [= ->]; reflexivity.
  - split; [tauto|]. intro data. split; discriminate.
Qed.

(** X11.  The gallery document that the section route returns holds
    what the card routes return: under ["categories"] the list of
    [/api/categories], whose count is its length, and under ["cards"]
    the cards of an unfiltered [/api/cards], each as its document. *)
Theorem gallery_document_matches_card_routes :
  forall (wd : WebsiteData) (g : Gallery) (now : string),
    gallery wd = Some g ->
    exists r d rcat rcards,
      get_section_content wd "gallery" now = Return r 200
      /\ section_data r = VDict d
      /\ get_categories wd now = Return rcat 200
      /\ dict_get "categories" d = Some (VList (map VStr (categories rcat)))
      /\ categories_total_count rcat
         = Z.of_nat (List.length (categories rcat))
      /\ get_cards wd [] now = Return rcards 200
      /\ dict_get "cards" d
         = Some (VList (map value_of_card (cards rcards))).
Proof.
  intros wd g now Hg.
  unfold get_section_content, get_categories, get_cards; simpl.
  change (getattr wd "gallery")
    with (option_map value_of_gallery (gallery wd)).
  rewrite Hg; simpl.
  eexists _, _, _, _. repeat split; reflexivity.
Qed.

Lemma gallery_document_matches_card_routes_witness :
  exists r d,
    get_section_content (website_data 2024 "2024-01-01T00:00:00")
      "gallery" "2024-06-01T12:00:00" = Return r 200
    /\ section_data r = VDict d
    /\ dict_get "categories" d = Some (VList (map VStr categories_data))
    /\ dict_get "cards" d = Some (VList (map value_of_card cards_data)).
Proof.
  destruct (gallery_document_matches_card_routes
              (website_data 2024 "2024-01-01T00:00:00") gallery_data
              "2024-06-01T12:00:00" eq_refl)
    as [r [d [rcat [rcards [Hr [Hd [Hcat [Hc [_ [Hcards Hcs]]]]]]]]]].
  exists r, d. split; [exact Hr|]. split; [exact Hd|].
  injection Hcat as <-. injection Hcards as <-.
  split; [exact Hc | exact Hcs].
Defined.

(* ================================================================= *)
(** * Which requests succeed *)

(** X12.  The health check answers 200, with the version stored under
    ["version"] in the metadata and the debug flag, exactly when the
    metadata is a dict that has that key; with no metadata, with
    metadata of another shape or without the key it raises the 500
    error [HEALTH_CHECK_FAILED]. *)
Theorem health_check_cases :
  forall (wd : WebsiteData) (debug : bool) (now : string),
    (forall d version,
       metadata wd = Some (VDict d) ->
       dict_get "version" d = Some version ->
       health_check wd debug now
       = Return {| health_status := "healthy";
                   health_message := "All Occasion Cards API is running";
                   health_timestamp := now;
                   health_version := version;
                   health_debug_mode := debug |} 200)
    /\ ((forall d, metadata wd = Some (VDict d) ->
                   dict_get "version" d = None) ->
        health_check wd debug now
        = Raise {| message := "Health check failed";
                   status_code := 500;
                   error_code := "HEALTH_CHECK_FAILED" |})
    /\ (forall r status,
          health_check wd debug now = Return r status ->
          status = 200%Z
          /\ exists d, metadata wd = Some (VDict d)
                       /\ dict_get "version" d = Some (health_version r)).
Proof.
  intros wd debug now. unfold health_check. split; [|split].
  - intros d version -> ->. reflexivity.
  - intro H. destruct (metadata wd) as [[| | | | |d]|]; try reflexivity.
    now rewrite (H d eq_refl).
  - intros r status.
    destruct (metadata wd) as [[| | | | |d]|]; try discriminate.
    destruct (dict_get "version" d) as [v|] eqn:E; [|discriminate].
    intros [= <- <-]. split; [reflexivity|]. now exists d.
Qed.

Lemma health_check_cases_witness :
  health_check (website_data 2024 "2024-01-01T00:00:00") true
    "2024-06-01T12:00:00"
  = Return {| health_status := "healthy";
              health_message := "All Occasion Cards API is running";
              health_timestamp := "2024-06-01T12:00:00";
              health_version := VStr "1.0.0";
              health_debug_mode := true |} 200
  /\ health_check {| header := None; hero := None; about := None;
                     gallery := None; contact := None; footer := None;
                     metadata := Some (VDict [("site_name", VStr "x")]);
                     theme := None |} true "2024-06-01T12:00:00"
     = Raise {| message := "Health check failed";
                status_code := 500;
                error_code := "HEALTH_CHECK_FAILED" |}.
Proof.
  split.
  - eapply (proj1 (health_check_cases
                     (website_data 2024 "2024-01-01T00:00:00") true
                     "2024-06-01T12:00:00")).
    + reflexivity.
    + reflexivity.
  - apply (proj1 (proj2 (health_check_cases
                    {| header := None; hero := None; about := None;
                       gallery := None; contact := None; footer := None;
                       metadata := Some (VDict [("site_name", VStr "x")]);
                       theme := None |} true "2024-06-01T12:00:00"))).
    intros d [= <-]. reflexivity.
Defined.

(** X13.  The seven modelled routes raise nothing outside a fixed
    table of errors: 400 [INVALID_SECTION], 404 [SECTION_NOT_FOUND] or
    [CARD_NOT_FOUND], and four 500 errors.  The HTTP status sent is the
    error's status code, and 200 when no error is raised.  A 500 error
    needs a store without gallery or without a version in its
    metadata. *)
Theorem served_errors_in_table :
  forall (debug : bool) (wd : WebsiteData) (req : request) (now : string),
    let resp := snd (serve debug wd req now) in
    (response_error resp = None -> response_status resp now = 200%Z)
    /\ (forall e,
          response_error resp = Some e ->
          In (status_code e, error_code e) error_table
          /\ response_status resp now = status_code e
          /\ (status_code e = 500%Z ->
              gallery wd = None
              \/ forall d, metadata wd = Some (VDict d) ->
                           dict_get "version" d = None)).
Proof.
  intros debug wd req now resp. subst resp.
  destruct req as [| |section|args|id| |]; simpl.
  - unfold health_check.
    destruct (metadata wd) as [[| | | | |d]|]; simpl;
      try (split; [discriminate|]; intros e [= <-]; simpl;
           split; [tauto|]; split; [reflexivity|]; intros _; right;
           intros d' [=]).
    destruct (dict_get "version" d) eqn:E; simpl.
    + split; [reflexivity | discriminate].
    + split; [discriminate|]. intros e [= <-]; simpl.
      split; [tauto|]. split; [reflexivity|]. intros _. right.
      now intros d' [= <-].
  - split; [reflexivity | discriminate].
  - unfold get_section_content.
    destruct (Py.mem section valid_sections); simpl.
    + destruct (getattr wd section); simpl.
      * split; [reflexivity | discriminate].
      * split; [discriminate|]. intros e [= <-]; simpl.
        split; [tauto|]. split; [reflexivity | discriminate].
    + split; [discriminate|]. intros e [= <-]; simpl.
      split; [tauto|]. split; [reflexivity | discriminate].
  - unfold get_cards. destruct (gallery wd); simpl.
    + split; [reflexivity | discriminate].
    + split; [discriminate|]. intros e [= <-]; simpl.
      split; [tauto|]. split; [reflexivity | tauto].
  - unfold get_card_by_id. destruct (gallery wd) as [g|]; simpl.
    + destruct (find _ (gallery_cards g)); simpl.
      * split; [reflexivity | discriminate].
      * split; [discriminate|]. intros e [= <-]; simpl.
        split; [tauto|]. split; [reflexivity | discriminate].
    + split; [discriminate|]. intros e [= <-]; simpl.
      split; [tauto|]. split; [reflexivity | tauto].
  - unfold get_categories. destruct (gallery wd); simpl.
    + split; [reflexivity | discriminate].
    + split; [discriminate|]. intros e [= <-]; simpl.
      split; [tauto|]. split; [reflexivity | tauto].
  - split; [reflexivity | discriminate].
Qed.

Lemma served_errors_in_table_witness :
  response_status
    (snd (serve true (website_data 2024 "2024-01-01T00:00:00")
            GetCategories "2024-06-01T12:00:00"))
    "2024-06-01T12:00:00" = 200%Z
  /\ response_status
       (snd (serve true (website_data 2024 "2024-01-01T00:00:00")
               (GetCard 42) "2024-06-01T12:00:00"))
       "2024-06-01T12:00:00" = 404%Z.
Proof.
  split.
  - apply (proj1 (served_errors_in_table true
                    (website_data 2024 "2024-01-01T00:00:00")
                    GetCategories "2024-06-01T12:00:00")).
    reflexivity.
  - apply (proj2 (served_errors_in_table true
                    (website_data 2024 "2024-01-01T00:00:00")
                    (GetCard 42) "2024-06-01T12:00:00")
             (card_not_found 42)).
    reflexivity.
Defined.

(** X14.  With the static data, after any sequence of requests, the
    status of a request is settled by the request alone: a section
    request succeeds for the eight recognised names and is a 400
    otherwise, a card request succeeds for the ids 1 to 6 and is a 404
    otherwise, and every other modelled route answers 200.  Neither
    [SECTION_NOT_FOUND] nor a 500 arises. *)
Theorem static_store_statuses :
  forall (debug : bool) (year : Z) (last_updated : string)
         (reqs : list (request * string)) (req : request) (now : string),
    let wd := fst (run debug (website_data year last_updated) reqs) in
    response_status (snd (serve debug wd req now)) now
    = match req with
      | GetSection section =>
          if Py.mem section valid_sections then 200%Z else 400%Z
      | GetCard id =>
          if ((1 <=? id) && (id <=? 6))%Z then 200%Z else 404%Z
      | _ => 200%Z
      end.
Proof.
  intros debug year last_updated reqs req now wd. subst wd.
  rewrite run_keeps_store.
  destruct req as [| |section|args|id| |]; try reflexivity.
  - cbn [serve snd response_status]. unfold get_section_content.
    destruct (Py.mem section valid_sections) eqn:Hm; cbn [negb];
      [|reflexivity].
    pose proof (website_data_sections_present year last_updated
                  section Hm) as Hp.
    destruct (getattr (website_data year last_updated) section);
      [reflexivity | congruence].
  - cbn [serve snd response_status]. unfold get_card_by_id.
    cbn [website_data initialize_data gallery gallery_data gallery_cards
         cards_data find card_id].
    repeat match goal with
           | |- context [(?k =? id)%Z] =>
               destruct (Z.eqb_spec k id); [subst; reflexivity|]
           end.
    destruct (Z.leb_spec 1 id), (Z.leb_spec id 6); cbn [andb];
      try reflexivity; lia.
Qed.

(* ================================================================= *)
(** * The debug routes *)

Lemma last_50_skipn (lines : list string) :
  last_50 lines = skipn (List.length lines - 50) lines.
Proof.
  unfold last_50. destruct (Nat.ltb_spec 50 (List.length lines)) as [H|H].
  - reflexivity.
  - replace (List.length lines - 50)%nat with 0%nat by lia. reflexivity.
Qed.

(** X15.  [/api/debug/logs] is refused with 403 [DEBUG_DISABLED] when
    debug mode is off, whatever the log file.  In debug mode it returns
    the end of the log: at most 50 lines, exactly the last
    [min 50 n] of the [n] lines of the file in their order, with
    [total_entries] their number; a missing file gives the single entry
    ["No log file found"]. *)
Theorem debug_logs_tail :
  forall (log : log_read) (lines : list string) (now : string),
    debug_logs false log now = Raise debug_disabled
    /\ (exists r older,
          debug_logs true (LogLines lines) now = Return r 200
          /\ lines = (older ++ recent_entries r)%list
          /\ List.length (recent_entries r)
             = Nat.min 50 (List.length lines)
          /\ total_entries r
             = Z.of_nat (Nat.min 50 (List.length lines))
          /\ (total_entries r <= 50)%Z)
    /\ debug_logs true LogNotFound now
       = Return {| recent_entries := ["No log file found"];
                   total_entries := 1;
                   debug_logs_timestamp := now |} 200.
Proof.
  intros log lines now. split; [reflexivity|]. split; [|reflexivity].
  unfold debug_logs; simpl. rewrite last_50_skipn.
  eexists _, (firstn (List.length lines - 50) lines).
  split; [reflexivity|]. simpl.
  assert (Hl : List.length (skipn (List.length lines - 50) lines)
               = Nat.min 50 (List.length lines))
    by (rewrite length_skipn; lia).
  split; [now rewrite firstn_skipn|]. split; [exact Hl|].
  rewrite Hl. split; [reflexivity | lia].
Qed.

Lemma dict_get_computed {A : Type} (f : string -> A) (name : string)
    (names : list string) :
  dict_get name (map (fun attr => (attr, f attr)) names)
  = if Py.mem name names then Some (f name) else None.
Proof.
  unfold Py.mem. induction names as [|a names IH]; simpl; [reflexivity|].
  rewrite (String.eqb_sym name a).
  destruct (String.eqb_spec a name) as [->|_]; [reflexivity | exact IH].
Qed.

Lemma mem_same_elements (x : string) (l l' : list string) :
  (In x l <-> In x l') -> Py.mem x l = Py.mem x l'.
Proof. intro H. apply eq_true_iff_eq. now rewrite !mem_In. Qed.

Lemma data_attributes_names wd names name :
  lists_the_attributes names ->
  (In name (map fst (data_attributes wd names)) <->
   In name valid_sections).
Proof.
  intros [Hall Hother]. unfold data_attributes.
  rewrite map_map, map_id. unfold callable. rewrite filter_In.
  split.
  - intros [Hin Hk]. destruct (Hother name Hin) as [H|H]; [exact H|].
    rewrite H in Hk. discriminate Hk.
  - intro H. split; [now apply Hall|].
    simpl in H.
    repeat (destruct H as [<-|H]; [reflexivity|]). destruct H.
Qed.

(** X16.  [/api/debug/data] is refused with 403 [DEBUG_DISABLED] when
    debug mode is off.  In debug mode it answers 200; of the names
    [dir] lists it keeps those that do not start with an underscore,
    which are the eight data attributes, and under each of them there
    is what [/api/content] has under it; the configuration it reports
    has debug on and key sorting off. *)
Theorem debug_data_matches_content :
  forall (wd : WebsiteData) (names : list string) (now : string),
    debug_data_structure wd false names now = Raise debug_disabled
    /\ (lists_the_attributes names ->
        exists r body,
          debug_data_structure wd true names now = Return r 200
          /\ get_all_content wd = Return body 200
          /\ (forall name,
                In name (map fst (data_structure r)) <->
                In name valid_sections)
          /\ (forall name,
                dict_get name (data_structure r) = dict_get name body)
          /\ app_config_debug r = true
          /\ app_config_json_sort_keys r = false).
Proof.
  intros wd names now. split; [reflexivity|]. intro Hn.
  eexists _, _. split; [reflexivity|]. split; [reflexivity|].
  cbn [data_structure app_config_debug app_config_json_sort_keys].
  split; [|split; [|split; reflexivity]].
  - intro name. now apply data_attributes_names.
  - intro name.
    destruct (all_content_lookup wd name) as [body [Hb Hl]].
    injection Hb as <-. rewrite Hl. unfold data_attributes.
    rewrite dict_get_computed.
    pose proof (data_attributes_names wd names name Hn) as H.
    unfold data_attributes in H. rewrite map_map, map_id in H.
    now rewrite (mem_same_elements _ _ _ H).
Qed.

Lemma debug_data_matches_content_witness :
  exists r,
    debug_data_structure (website_data 2024 "2024-01-01T00:00:00") true
      ["__class__"; "__dict__"; "__init__"; "_initialize_data"; "about";
       "contact"; "footer"; "gallery"; "header"; "hero"; "metadata";
       "theme"] "2024-06-01T12:00:00" = Return r 200
    /\ dict_get "_initialize_data" (data_structure r) = None
    /\ dict_get "hero" (data_structure r) = Some (Some hero_data).
Proof.
  destruct (proj2 (debug_data_matches_content
                     (website_data 2024 "2024-01-01T00:00:00")
                     ["__class__"; "__dict__"; "__init__";
                      "_initialize_data"; "about"; "contact"; "footer";
                      "gallery"; "header"; "hero"; "metadata"; "theme"]
                     "2024-06-01T12:00:00"))
    as [r [body [Hr [Hb [_ [Hl _]]]]]].
  - split.
    + intros name H. simpl in H |- *. tauto.
    + intros name H. simpl in H.
      repeat (destruct H as [<-|H]; [simpl; tauto|]). destruct H.
  - exists r. split; [exact Hr|].
    injection Hb as <-. rewrite !Hl. split; reflexivity.
Defined.

(* ================================================================= *)
(** * The debug flag *)

Ltac lower_by_cases :=
  let c := fresh "c" in
  let H := fresh "H" in
  intro c; destruct c as [[] [] [] [] [] [] [] []]; vm_compute;
  (split;
   [ intro H; first [discriminate H | left; reflexivity | right; reflexivity]
   | intros [H|H]; first [reflexivity | discriminate H] ]).

Lemma lower_is_t :
  forall c, Py.lower c = "t"%char <-> c = "t"%char \/ c = "T"%char.
Proof. lower_by_cases. Qed.

Lemma lower_is_r :
  forall c, Py.lower c = "r"%char <-> c = "r"%char \/ c = "R"%char.
Proof. lower_by_cases. Qed.

Lemma lower_is_u :
  forall c, Py.lower c = "u"%char <-> c = "u"%char \/ c = "U"%char.
Proof. lower_by_cases. Qed.

Lemma lower_is_e :
  forall c, Py.lower c = "e"%char <-> c = "e"%char \/ c = "E"%char.
Proof. lower_by_cases. Qed.

(** X17.  Debug mode is on when [FLASK_DEBUG] is unset, and otherwise
    exactly when its value is the four letters of [true] in any mix of
    upper and lower case; every other value, such as [1], [yes] or the
    empty string, turns it off. *)
Theorem debug_config_values :
  debug_config None = true
  /\ (forall v,
        debug_config (Some v) = true <->
        exists a b c d,
          v = String a (String b (String c (String d "")))
          /\ (a = "t" \/ a = "T")%char
          /\ (b = "r" \/ b = "R")%char
          /\ (c = "u" \/ c = "U")%char
          /\ (d = "e" \/ d = "E")%char)
  /\ map debug_config [Some "1"; Some "yes"; Some "on"; Some "";
                       Some " true"; Some "false"]
     = [false; false; false; false; false; false].
Proof.
  split; [reflexivity|]. split; [|reflexivity].
  intro v. unfold debug_config. rewrite String.eqb_eq. split.
  - destruct v as [|a [|b [|c [|d [|e v]]]]]; simpl;
      try discriminate.
    intros [= Ha Hb Hc Hd]. exists a, b, c, d.
    split; [reflexivity|].
    apply lower_is_t in Ha. apply lower_is_r in Hb.
    apply lower_is_u in Hc. apply lower_is_e in Hd. tauto.
  - intros [a [b [c [d [-> [Ha [Hb [Hc Hd]]]]]]]].
    apply lower_is_t in Ha. apply lower_is_r in Hb.
    apply lower_is_u in Hc. apply lower_is_e in Hd.
    unfold str_lower; simpl. now rewrite Ha, Hb, Hc, Hd.
Qed.

(* ================================================================= *)
(** * Finding a card by what it carries *)

Lemma SFleb_refl (x : spec_float) : x <> S754_nan -> SFleb x x = true.
Proof.
  unfold SFleb. destruct x as [s|s| |s m e]; simpl; intro H.
  - reflexivity.
  - now destruct s.
  - congruence.
  - change (PosDef.Pos.compare_cont Eq) with Pos.compare.
    rewrite Z.compare_refl, Pos.compare_refl. now destruct s.
Qed.

Lemma float_leb_refl (x : float) :
  is_nan x = false -> (x <=? x)%float = true.
Proof.
  intro H. rewrite leb_spec. apply SFleb_refl.
  unfold Prim2SF. rewrite H.
  destruct (is_zero x); [discriminate|].
  destruct (is_infinity x); [discriminate|].
  destruct (Z.frexp x) as [r e].
  destruct (shr_fexp prec emax _ _ _) as [mrs e'].
  destruct (shr_m mrs); discriminate.
Qed.

Lemma split_comma_no_comma (t : string) :
  ~ In ","%char (list_ascii_of_string t) -> Py.split_comma t = [t].
Proof.
  induction t as [|a t IH]; simpl; intro H; [reflexivity|].
  destruct (Ascii.eqb_spec a ","%char) as [->|_]; [tauto|].
  rewrite IH; [reflexivity | tauto].
Qed.

(** X18.  Every card of the catalog can be found by what it carries.
    A request for the card's category, if that is not the empty string,
    returns the card; so does a request for any one of its tags that
    is non-empty and has no comma; and so does a request with both
    price bounds at the card's price, sent as any text [float] reads as
    that price, provided the price is not a NaN. *)
Theorem cards_found_by_own_fields :
  forall (wd : WebsiteData) (g : Gallery) (now : string) (c : Card),
    gallery wd = Some g ->
    In c (gallery_cards g) ->
    (card_category c <> "" ->
     exists r,
       get_cards wd [("category", card_category c)] now = Return r 200
       /\ In c (cards r))
    /\ (forall t,
          In t (card_tags c) ->
          t <> "" ->
          ~ In ","%char (list_ascii_of_string t) ->
          exists r,
            get_cards wd [("tags", t)] now = Return r 200
            /\ In c (cards r))
    /\ (forall text,
          Py.float text = Some (card_price c) ->
          is_nan (card_price c) = false ->
          exists r,
            get_cards wd [("min_price", text); ("max_price", text)] now
            = Return r 200
            /\ In c (cards r)).
Proof.
  intros wd g now c Hg Hc.
  split; [|split].
  - intro Hne. rewrite (get_cards_returns wd g _ now Hg).
    eexists. split; [reflexivity|]. cbn [cards].
    rewrite filter_cards_passes. apply filter_In. split; [exact Hc|].
    unfold passes, parse_filters, args_get_float.
    cbn [category min_price max_price tags args_get dict_get
         String.eqb Ascii.eqb Bool.eqb category_given tags_given andb].
    assert (Htr : Py.truthy (card_category c) = true)
      by (destruct (card_category c); [congruence | reflexivity]).
    now rewrite Htr, String.eqb_refl.
  - intros t Ht Hne Hcomma. rewrite (get_cards_returns wd g _ now Hg).
    eexists. split; [reflexivity|]. cbn [cards].
    rewrite filter_cards_passes. apply filter_In. split; [exact Hc|].
    unfold passes, parse_filters, args_get_float.
    cbn [category min_price max_price tags args_get dict_get
         String.eqb Ascii.eqb Bool.eqb category_given andb].
    assert (Htr : Py.truthy t = true)
      by (destruct t; [congruence | reflexivity]).
    rewrite Htr, (split_comma_no_comma t Hcomma).
    cbn [tags_given]. rewrite Htr.
    apply shares_tag_iff. exists t. simpl. tauto.
  - intros text Hp Hn. rewrite (get_cards_returns wd g _ now Hg).
    eexists. split; [reflexivity|]. cbn [cards].
    rewrite filter_cards_passes. apply filter_In. split; [exact Hc|].
    unfold passes, parse_filters, args_get_float.
    cbn [category min_price max_price tags args_get dict_get
         String.eqb Ascii.eqb Bool.eqb category_given tags_given andb].
    rewrite Hp. now rewrite (float_leb_refl _ Hn).
Qed.

Lemma cards_found_by_own_fields_witness :
  exists c,
    nth_error cards_data 2 = Some c
    /\ (exists r,
          get_cards (website_data 2024 "2024-01-01T00:00:00")
            [("category", "wedding")] "2024-06-01T12:00:00"
          = Return r 200 /\ In c (cards r))
    /\ (exists r,
          get_cards (website_data 2024 "2024-01-01T00:00:00")
            [("tags", "gold")] "2024-06-01T12:00:00"
          = Return r 200 /\ In c (cards r))
    /\ (exists r,
          get_cards (website_data 2024 "2024-01-01T00:00:00")
            [("min_price", "6.99"); ("max_price", "6.99")]
            "2024-06-01T12:00:00"
          = Return r 200 /\ In c (cards r)).
Proof.
  eexists. split; [reflexivity|].
  pose proof (cards_found_by_own_fields
                (website_data 2024 "2024-01-01T00:00:00") gallery_data
                "2024-06-01T12:00:00" _ eq_refl
                (or_intror (or_intror (or_introl eq_refl))))
    as [Hcat [Htag Hprice]].
  split; [|split].
  - apply Hcat. discriminate.
  - apply (Htag "gold").
    + simpl. tauto.
    + discriminate.
    + simpl. intuition discriminate.
  - apply (Hprice "6.99").
    + vm_compute. reflexivity.
    + reflexivity.
Defined.

(** X19.  In a store whose cards all have a declared category, every
    card that [/api/cards] returns, under any query string, has a
    category among those [/api/categories] returns. *)
Theorem returned_cards_have_listed_category :
  forall (wd : WebsiteData) (g : Gallery) (args : Args) (now now' : string)
         (r : CardsResponse) (status : Z) (c : Card),
    gallery wd = Some g ->
    categories_declared g ->
    get_cards wd args now = Return r status ->
    In c (cards r) ->
    exists rc,
      get_categories wd now' = Return rc 200
      /\ In (card_category c) (categories rc).
Proof.
  intros wd g args now now' r status c Hg Hd Hr Hc.
  unfold get_categories. rewrite Hg. eexists. split; [reflexivity|].
  simpl. apply Hd.
  rewrite (get_cards_returns wd g args now Hg) in Hr.
  injection Hr as <- _. now apply filter_cards_incl in Hc.
Qed.

Lemma returned_cards_have_listed_category_witness :
  exists c rc,
    nth_error cards_data 3 = Some c
    /\ get_categories (website_data 2024 "2024-01-01T00:00:00")
         "2024-06-01T12:00:05" = Return rc 200
    /\ In (card_category c) (categories rc).
Proof.
  eexists.
  destruct (returned_cards_have_listed_category
              (website_data 2024 "2024-01-01T00:00:00") gallery_data
              [("max_price", "4")] "2024-06-01T12:00:00"
              "2024-06-01T12:00:05" _ 200%Z _
              eq_refl gallery_data_categories_declared eq_refl
              (or_introl eq_refl))
    as [rc [Hrc Hin]].
  exists rc. split; [reflexivity|]. split; [exact Hrc | exact Hin].
Defined.

(* ================================================================= *)
(** * Repeated and unknown parameters *)

Lemma dict_get_app {A : Type} (key : string) (l1 l2 : list (string * A)) :
  dict_get key (l1 ++ l2)%list
  = match dict_get key l1 with
    | Some v => Some v
    | None => dict_get key l2
    end.
Proof.
  induction l1 as [|[k v] l1 IH]; simpl; [reflexivity|].
  now destruct (k =? key).
Qed.

Lemma get_cards_same_filters wd args args' now :
  parse_filters args = parse_filters args' ->
  get_cards wd args now = get_cards wd args' now.
Proof. intro H. unfold get_cards. now rewrite H. Qed.

(** X20.  Of a parameter sent more than once only the first value
    counts, and a parameter the route does not know is ignored:
    removing the later values of a parameter, or a parameter other than
    [category], [min_price], [max_price] and [tags], leaves the answer
    unchanged. *)
Theorem repeated_and_unknown_parameters :
  forall (wd : WebsiteData) (before after : Args) (key value now : string),
    get_cards wd (before ++ (key, value) :: after)%list now
    = get_cards wd (before ++ (key, value) :: args_remove key after)%list
        now
    /\ (~ In key ["category"; "min_price"; "max_price"; "tags"] ->
        get_cards wd (before ++ (key, value) :: after)%list now
        = get_cards wd (before ++ after)%list now).
Proof.
  intros wd before after key value now.
  assert (H1 : forall k,
            args_get k (before ++ (key, value) :: after)%list
            = args_get k (before ++ (key, value)
                                 :: args_remove key after)%list).
  { intro k. unfold args_get. rewrite !dict_get_app. simpl.
    destruct (dict_get k before); [reflexivity|].
    destruct (key =? k) eqn:E; [reflexivity|].
    fold (args_get k (args_remove key after)).
    rewrite args_get_remove, String.eqb_sym, E. reflexivity. }
  split.
  - apply get_cards_same_filters. unfold parse_filters, args_get_float.
    now rewrite !H1.
  - intro Hk.
    assert (H2 : forall k,
              In k ["category"; "min_price"; "max_price"; "tags"] ->
              args_get k (before ++ (key, value) :: after)%list
              = args_get k (before ++ after)%list).
    { intros k Hin. unfold args_get. rewrite !dict_get_app. simpl.
      destruct (dict_get k before); [reflexivity|].
      destruct (String.eqb_spec key k) as [->|_]; [tauto | reflexivity]. }
    apply get_cards_same_filters. unfold parse_filters, args_get_float.
    rewrite (H2 "category"), (H2 "min_price"), (H2 "max_price"),
      (H2 "tags"); simpl; tauto.
Qed.

Lemma repeated_and_unknown_parameters_witness :
  get_cards (website_data 2024 "2024-01-01T00:00:00")
    [("category", "wedding"); ("page", "2")] "2024-06-01T12:00:00"
  = get_cards (website_data 2024 "2024-01-01T00:00:00")
      [("category", "wedding")] "2024-06-01T12:00:00".
Proof.
  apply (proj2 (repeated_and_unknown_parameters
                  (website_data 2024 "2024-01-01T00:00:00")
                  [("category", "wedding")] [] "page" "2"
                  "2024-06-01T12:00:00")).
  simpl. intuition discriminate.
Defined.
